(** * isle.py: the Shibboleth welcome script of isle-server

    A shallow embedding of [etc/shibboleth/isle.py], the CGI script that
    turns the identity headers injected by Shibboleth into a signed redirect
    to the ISLE dashboard, together with the properties of the script that
    its specification states.

    The script is Python 2: a [str] is a byte string, modelled as [string]
    (a list of 8-bit [ascii]); the attribute dictionary is a [gmap string
    string]; the process environment, the file system, the clock, the
    entropy source and standard output are fields of an explicit [World]
    threaded through a state-and-exception monad. The libraries the script
    calls ([base64], [hashlib], [str.format], [str.encode('hex')]) are
    modelled by what they compute. [diagnostic_output] is defined by the
    script but never called by it, and is left out. *)

From Stdlib Require Import NArith ZArith Ascii String List Lia.
From Stdlib Require Import Floats.SpecFloat.
From stdpp Require Import base option gmap strings list fin_maps.

Local Open Scope N_scope.

(** ** Exceptions and results *)

(** The exceptions the script can raise, with the argument Python attaches. *)
Inductive exn : Type :=
| KeyError (key : string)
| IOError (path : string)
| TypeError (msg : string)
| IndexError (msg : string)
| ValueError (msg : string).

Inductive result (A : Type) : Type :=
| Ok (a : A)
| Raise (e : exn).
Arguments Ok {A} a.
Arguments Raise {A} e.

Definition result_map {A B} (f : A -> B) (r : result A) : result B :=
  match r with
  | Ok a => Ok (f a)
  | Raise e => Raise e
  end.

Definition result_bind {A B} (r : result A) (k : A -> result B) : result B :=
  match r with
  | Ok a => k a
  | Raise e => Raise e
  end.

(** ** Byte strings *)

Module Bytes.

Definition ord (c : ascii) : N := N_of_ascii c.
Definition chr (n : N) : ascii := ascii_of_N n.

Definition eqb (a b : ascii) : bool := Ascii.eqb a b.

Fixpoint all (p : ascii -> bool) (s : string) : bool :=
  match s with
  | EmptyString => true
  | String c r => p c && all p r
  end.

Fixpoint mem (c : ascii) (s : string) : bool :=
  match s with
  | EmptyString => false
  | String d r => eqb c d || mem c r
  end.

(** [s.translate(string.maketrans(src, dst))] for one-to-one tables given
    as a list of pairs: a byte that is no source is kept. *)
Fixpoint translate1 (tbl : list (ascii * ascii)) (c : ascii) : ascii :=
  match tbl with
  | [] => c
  | (a, b) :: t => if eqb c a then b else translate1 t c
  end.

Fixpoint translate (tbl : list (ascii * ascii)) (s : string) : string :=
  match s with
  | EmptyString => EmptyString
  | String c r => String (translate1 tbl c) (translate tbl r)
  end.

(** [s + c] for a single byte [c] *)
Fixpoint snoc (s : string) (c : ascii) : string :=
  match s with
  | EmptyString => String c EmptyString
  | String d r => String d (snoc r c)
  end.

(** [sep.join(parts)] *)
Fixpoint join (sep : string) (parts : list string) : string :=
  match parts with
  | [] => ""
  | [p] => p
  | p :: ps => p +:+ sep +:+ join sep ps
  end.

(** [s.split(sep)] for a one-byte separator: the pieces between the
    occurrences of [sep]; a string without [sep] is its only piece. *)
Fixpoint split (sep : ascii) (s : string) : list string :=
  match s with
  | EmptyString => [EmptyString]
  | String c r =>
      if eqb c sep then EmptyString :: split sep r
      else match split sep r with
           | [] => [String c EmptyString]
           | p :: ps => String c p :: ps
           end
  end.

(** The six bytes Python 2's [str.isspace] accepts in the C locale. *)
Definition isspace (c : ascii) : bool :=
  let n := ord c in (n =? 32) || ((9 <=? n) && (n <=? 13)).

Fixpoint lstrip (s : string) : string :=
  match s with
  | EmptyString => EmptyString
  | String c r => if isspace c then lstrip r else s
  end.

Fixpoint rstrip (s : string) : string :=
  match s with
  | EmptyString => EmptyString
  | String c r =>
      match rstrip r with
      | EmptyString => if isspace c then EmptyString else String c EmptyString
      | r' => String c r'
      end
  end.

(** [s.strip()] *)
Definition strip (s : string) : string := rstrip (lstrip s).

(** [s.startswith(prefix)] *)
Fixpoint startswith (prefix s : string) : bool :=
  match prefix, s with
  | EmptyString, _ => true
  | String c p, String d r => eqb c d && startswith p r
  | String _ _, EmptyString => false
  end.

(** First and last byte of a string. *)
Definition first (s : string) : option ascii :=
  match s with
  | EmptyString => None
  | String c _ => Some c
  end.

Fixpoint last (s : string) : option ascii :=
  match s with
  | EmptyString => None
  | String c EmptyString => Some c
  | String _ r => last r
  end.

Definition is_space_opt (o : option ascii) : bool :=
  match o with
  | Some c => isspace c
  | None => false
  end.

(** The 256 bytes, for properties checked byte by byte. *)
Definition all_bytes : list ascii := map ascii_of_nat (seq 0 256).

Definition for_all_bytes (p : ascii -> bool) : bool := forallb p all_bytes.

End Bytes.

(** ** [str.encode('hex')], that is [binascii.hexlify] *)

Module Hex.

Definition digits : string := "0123456789abcdef".

Definition digit (n : N) : ascii :=
  match String.get (N.to_nat n) digits with
  | Some c => c
  | None => "0"%char
  end.

Definition byte (c : ascii) : string :=
  let n := Bytes.ord c in
  String (digit (N.shiftr n 4)) (String (digit (N.land n 15)) EmptyString).

Fixpoint hexlify (s : string) : string :=
  match s with
  | EmptyString => EmptyString
  | String c r => byte c +:+ hexlify r
  end.

Definition is_lower_hex (c : ascii) : bool := Bytes.mem c digits.

(** The byte two hexadecimal digits stand for (the inverse of [byte]). *)
Fixpoint value (c : ascii) (tbl : string) (i : N) : N :=
  match tbl with
  | EmptyString => 0
  | String d r => if Bytes.eqb c d then i else value c r (i + 1)
  end.

Definition unbyte (s : string) : ascii :=
  match s with
  | String hi (String lo _) => Bytes.chr (16 * value hi digits 0 + value lo digits 0)
  | _ => Bytes.chr 0
  end.

End Hex.

(** ** The [base64] module of the Python 2.7 library

    [urlsafe_b64encode] and [urlsafe_b64decode] are the library's: the
    standard alphabet, then a translation of [+/] into [-_] (and back before
    decoding). The decoder is [binascii.a2b_base64]: a lenient scanner that
    skips bytes outside the alphabet and stops at the first well-placed pad. *)

Module Base64.

Definition table_b2a_base64 : string :=
  "ABCDEFGHIJKLMNOPQRSTUVWXYZabcdefghijklmnopqrstuvwxyz0123456789+/".

Definition BASE64_PAD : ascii := "="%char.

Definition b2a (n : N) : ascii :=
  match String.get (N.to_nat n) table_b2a_base64 with
  | Some c => c
  | None => BASE64_PAD
  end.

(** [binascii.b2a_base64] without its courtesy newline, which
    [base64.b64encode] strips: three bytes give four sextets; a last group
    of one or two bytes is completed with pads. *)
Fixpoint b2a_base64 (bin_data : string) : string :=
  match bin_data with
  | EmptyString => EmptyString
  | String x EmptyString =>
      let a := Bytes.ord x in
      String (b2a (N.shiftr a 2))
        (String (b2a (N.shiftl (N.land a 3) 4))
           (String BASE64_PAD (String BASE64_PAD EmptyString)))
  | String x (String y EmptyString) =>
      let a := Bytes.ord x in
      let b := Bytes.ord y in
      String (b2a (N.shiftr a 2))
        (String (b2a (N.lor (N.shiftl (N.land a 3) 4) (N.shiftr b 4)))
           (String (b2a (N.shiftl (N.land b 15) 2))
              (String BASE64_PAD EmptyString)))
  | String x (String y (String z rest)) =>
      let a := Bytes.ord x in
      let b := Bytes.ord y in
      let c := Bytes.ord z in
      String (b2a (N.shiftr a 2))
        (String (b2a (N.lor (N.shiftl (N.land a 3) 4) (N.shiftr b 4)))
           (String (b2a (N.lor (N.shiftl (N.land b 15) 2) (N.shiftr c 6)))
              (String (b2a (N.land c 63)) (b2a_base64 rest))))
  end.

Definition b64encode (s : string) : string := b2a_base64 s.

Definition _urlsafe_encode_translation : list (ascii * ascii) :=
  [("+"%char, "-"%char); ("/"%char, "_"%char)].

Definition _urlsafe_decode_translation : list (ascii * ascii) :=
  [("-"%char, "+"%char); ("_"%char, "/"%char)].

Definition urlsafe_b64encode (s : string) : string :=
  Bytes.translate _urlsafe_encode_translation (b64encode s).

(** Position of a byte in the alphabet. *)
Fixpoint index_of (c : ascii) (tbl : string) (i : N) : option N :=
  match tbl with
  | EmptyString => None
  | String d r => if Bytes.eqb c d then Some i else index_of c r (i + 1)
  end.

(** [table_a2b_base64]: the sextet of an alphabet byte, 0 for the pad,
    nothing (the table's -1) for every other byte. *)
Definition table_a2b_base64 (c : ascii) : option N :=
  if Bytes.eqb c BASE64_PAD then Some 0
  else index_of c table_b2a_base64 0.

(** [binascii_find_valid]: the [num]-th (from 0) valid base64 byte of [s]. *)
Fixpoint binascii_find_valid (s : string) (num : nat) : option ascii :=
  match s with
  | EmptyString => None
  | String c r =>
      if (Bytes.ord c <=? 127) && bool_decide (is_Some (table_a2b_base64 c))
      then match num with
           | O => Some c
           | S n => binascii_find_valid r n
           end
      else binascii_find_valid r num
  end.

Definition skipped (c : ascii) : bool :=
  (127 <? Bytes.ord c) || (Bytes.ord c =? 13) || (Bytes.ord c =? 10)
  || (Bytes.ord c =? 32).

(** The scanning loop of [binascii.a2b_base64] with its three registers. *)
Fixpoint a2b_loop (ascii_data : string) (quad_pos leftchar leftbits : N)
  : result string :=
  match ascii_data with
  | EmptyString =>
      if leftbits =? 0 then Ok EmptyString
      else Raise (TypeError "Incorrect padding")
  | String this_ch rest =>
      if skipped this_ch then a2b_loop rest quad_pos leftchar leftbits
      else if Bytes.eqb this_ch BASE64_PAD then
        if (quad_pos <? 2)
           || ((quad_pos =? 2)
               && negb (bool_decide
                          (binascii_find_valid ascii_data 1 = Some BASE64_PAD)))
        then a2b_loop rest quad_pos leftchar leftbits
        else Ok EmptyString
      else
        match table_a2b_base64 this_ch with
        | None => a2b_loop rest quad_pos leftchar leftbits
        | Some v =>
            let quad_pos := N.land (quad_pos + 1) 3 in
            let leftchar := N.lor (N.shiftl leftchar 6) v in
            let leftbits := leftbits + 6 in
            if 8 <=? leftbits then
              let leftbits := leftbits - 8 in
              result_map
                (String (Bytes.chr (N.land (N.shiftr leftchar leftbits) 255)))
                (a2b_loop rest quad_pos
                   (N.land leftchar (N.shiftl 1 leftbits - 1)) leftbits)
            else a2b_loop rest quad_pos leftchar leftbits
        end
  end.

Definition a2b_base64 (s : string) : result string := a2b_loop s 0 0 0.

Definition b64decode (s : string) : result string := a2b_base64 s.

Definition urlsafe_b64decode (s : string) : result string :=
  b64decode (Bytes.translate _urlsafe_decode_translation s).

(** The bytes a URL-safe encoding can contain. *)
Definition urlsafe_alphabet : string :=
  "ABCDEFGHIJKLMNOPQRSTUVWXYZabcdefghijklmnopqrstuvwxyz0123456789-_=".

Definition is_urlsafe (c : ascii) : bool := Bytes.mem c urlsafe_alphabet.

(** The bytes the standard encoding can contain. *)
Definition is_standard (c : ascii) : bool :=
  Bytes.mem c table_b2a_base64 || Bytes.eqb c BASE64_PAD.

(** The four sextets of a group of three bytes. *)
Definition sx0 (x : ascii) : N := N.shiftr (Bytes.ord x) 2.
Definition sx1 (x y : ascii) : N :=
  N.lor (N.shiftl (N.land (Bytes.ord x) 3) 4) (N.shiftr (Bytes.ord y) 4).
Definition sx2 (y z : ascii) : N :=
  N.lor (N.shiftl (N.land (Bytes.ord y) 15) 2) (N.shiftr (Bytes.ord z) 6).
Definition sx3 (z : ascii) : N := N.land (Bytes.ord z) 63.

Definition zero : ascii := Bytes.chr 0.

(** What the decoder needs to know of an alphabet byte. *)
Definition sextet_ok (n : N) : bool :=
  let c := b2a n in
  negb (skipped c) && negb (Bytes.eqb c BASE64_PAD)
  && bool_decide (table_a2b_base64 c = Some n)
  && is_standard c
  && is_urlsafe (Bytes.translate1 _urlsafe_encode_translation c)
  && Bytes.eqb
       (Bytes.translate1 _urlsafe_decode_translation
          (Bytes.translate1 _urlsafe_encode_translation c)) c.


(** The decoder's registers while it reads a group: the byte it puts out
    is the byte that was encoded, and the bits it keeps are those the next
    sextet completes. *)
Definition registers12 (x y : ascii) : bool :=
  let l := N.lor (N.shiftl (N.lor (N.shiftl 0 6) (sx0 x)) 6) (sx1 x y) in
  (N.land (N.shiftr l 4) 255 =? Bytes.ord x)
  && (N.land l 15 =? N.shiftr (Bytes.ord y) 4).

Definition registers23 (y z : ascii) : bool :=
  let l := N.lor (N.shiftl (N.shiftr (Bytes.ord y) 4) 6) (sx2 y z) in
  (N.land (N.shiftr l 2) 255 =? Bytes.ord y)
  && (N.land l 3 =? N.shiftr (Bytes.ord z) 6).

Definition registers34 (z : ascii) : bool :=
  let l := N.lor (N.shiftl (N.shiftr (Bytes.ord z) 6) 6) (sx3 z) in
  N.land (N.shiftr l 0) 255 =? Bytes.ord z.

End Base64.

(** ** [hashlib.sha256] (FIPS 180-4)

    Words are 32-bit, held in [N] with the wrap-around written out. *)

Module SHA256.

Definition wrap (x : N) : N := x mod 2 ^ 32.
Definition add (x y : N) : N := wrap (x + y).

Definition rotr (n x : N) : N :=
  wrap (N.lor (N.shiftr x n) (N.shiftl x (32 - n))).
Definition shr (n x : N) : N := N.shiftr x n.

Definition Ch (x y z : N) : N :=
  N.lxor (N.land x y) (N.land (N.lxor x (N.ones 32)) z).
Definition Maj (x y z : N) : N :=
  N.lxor (N.lxor (N.land x y) (N.land x z)) (N.land y z).
Definition bsig0 (x : N) : N :=
  N.lxor (N.lxor (rotr 2 x) (rotr 13 x)) (rotr 22 x).
Definition bsig1 (x : N) : N :=
  N.lxor (N.lxor (rotr 6 x) (rotr 11 x)) (rotr 25 x).
Definition ssig0 (x : N) : N :=
  N.lxor (N.lxor (rotr 7 x) (rotr 18 x)) (shr 3 x).
Definition ssig1 (x : N) : N :=
  N.lxor (N.lxor (rotr 17 x) (rotr 19 x)) (shr 10 x).

(** The constants are the first 32 bits of the fractional parts of the
    square roots (initial hash value) and cube roots (round constants) of
    the first primes. *)
Definition primes : list N :=
  [2; 3; 5; 7; 11; 13; 17; 19; 23; 29; 31; 37; 41; 43; 47; 53; 59; 61; 67;
   71; 73; 79; 83; 89; 97; 101; 103; 107; 109; 113; 127; 131; 137; 139;
   149; 151; 157; 163; 167; 173; 179; 181; 191; 193; 197; 199; 211; 223;
   227; 229; 233; 239; 241; 251; 257; 263; 269; 271; 277; 281; 283; 293;
   307; 311].

(** Integer cube root by bisection on the bits of the result. *)
Fixpoint cbrt_bits (bits : nat) (n r : N) : N :=
  match bits with
  | O => r
  | S b =>
      let r' := r + 2 ^ N.of_nat b in
      cbrt_bits b n (if r' * r' * r' <=? n then r' else r)
  end.

Definition frac_sqrt (p : N) : N := wrap (N.sqrt (p * 2 ^ 64)).
Definition frac_cbrt (p : N) : N := wrap (cbrt_bits 36 (p * 2 ^ 96) 0).

Definition H0 : list N := Eval vm_compute in map frac_sqrt (take 8 primes).
Definition K : list N := Eval vm_compute in map frac_cbrt primes.

(** Big-endian serialisation. *)
Fixpoint be_bytes (count : nat) (x : N) : list N :=
  match count with
  | O => []
  | S c => N.shiftr x (8 * N.of_nat c) mod 256 :: be_bytes c x
  end.

Definition be_word (bs : list N) : N :=
  fold_left (fun acc b => acc * 256 + b) bs 0.

(** Padding: a 1 bit, zeros up to 56 modulo 64 bytes, the bit length. *)
Definition pad (msg : list N) : list N :=
  let len := N.of_nat (length msg) in
  let zeros := (55 + 64 - len mod 64) mod 64 in
  msg ++ [128] ++ repeat 0 (N.to_nat zeros) ++ be_bytes 8 (8 * len).

Fixpoint chunks {A} (size : nat) (fuel : nat) (l : list A) : list (list A) :=
  match fuel with
  | O => []
  | S f =>
      match l with
      | [] => []
      | _ => take size l :: chunks size f (drop size l)
      end
  end.

Definition words_of_block (block : list N) : list N :=
  map be_word (chunks 4 16 block).

(** The message schedule, kept most recent word first. *)
Fixpoint schedule (rounds : nat) (rev_w : list N) : list N :=
  match rounds with
  | O => rev_w
  | S r =>
      let w := add (add (ssig1 (nth 1 rev_w 0)) (nth 6 rev_w 0))
                   (add (ssig0 (nth 14 rev_w 0)) (nth 15 rev_w 0)) in
      schedule r (w :: rev_w)
  end.

Record state : Type := State
  { ra : N; rb : N; rc : N; rd : N; re : N; rf : N; rg : N; rh : N }.

Definition state_of_list (l : list N) : state :=
  State (nth 0 l 0) (nth 1 l 0) (nth 2 l 0) (nth 3 l 0)
        (nth 4 l 0) (nth 5 l 0) (nth 6 l 0) (nth 7 l 0).

Definition round (s : state) (kw : N * N) : state :=
  let '(k, w) := kw in
  let t1 := add (add (add (add (rh s) (bsig1 (re s))) (Ch (re s) (rf s) (rg s))) k) w in
  let t2 := add (bsig0 (ra s)) (Maj (ra s) (rb s) (rc s)) in
  State (add t1 t2) (ra s) (rb s) (rc s) (add (rd s) t1) (re s) (rf s) (rg s).

Definition compress (h : state) (block : list N) : state :=
  let w := rev (schedule 48 (rev (words_of_block block))) in
  let s := fold_left round (zip K w) h in
  State (add (ra h) (ra s)) (add (rb h) (rb s)) (add (rc h) (rc s))
        (add (rd h) (rd s)) (add (re h) (re s)) (add (rf h) (rf s))
        (add (rg h) (rg s)) (add (rh h) (rh s)).

Definition word_bytes (x : N) : string :=
  String (Bytes.chr (N.shiftr x 24 mod 256))
    (String (Bytes.chr (N.shiftr x 16 mod 256))
       (String (Bytes.chr (N.shiftr x 8 mod 256))
          (String (Bytes.chr (x mod 256)) EmptyString))).

Definition state_bytes (s : state) : string :=
  word_bytes (ra s) +:+ word_bytes (rb s) +:+ word_bytes (rc s)
  +:+ word_bytes (rd s) +:+ word_bytes (re s) +:+ word_bytes (rf s)
  +:+ word_bytes (rg s) +:+ word_bytes (rh s).

Fixpoint bytes_of_string (s : string) : list N :=
  match s with
  | EmptyString => []
  | String c r => Bytes.ord c :: bytes_of_string r
  end.

Definition hash (msg : string) : string :=
  let padded := pad (bytes_of_string msg) in
  state_bytes
    (fold_left compress (chunks 64 (length padded) padded) (state_of_list H0)).

(** The hash object: [hashlib.sha256()], [update], [digest]. *)
Record sha256 : Type := { buffered : string }.
Definition new : sha256 := {| buffered := EmptyString |}.
Definition update (h : sha256) (data : string) : sha256 :=
  {| buffered := buffered h +:+ data |}.
Definition digest (h : sha256) : string := hash (buffered h).

End SHA256.

(** ** [str.format]

    The fragment the script uses: literal text, the escapes [{{] and [}}],
    the auto-numbered field [{}] and keyword fields [{name}], every value a
    [str] (which formats as itself). A field with a conversion, a format
    specification, an attribute or an index is outside the fragment and is
    refused with a [ValueError]. *)

Module PyFormat.

Definition outside_fragment (c : ascii) : bool :=
  Bytes.mem c "{!:.[]".

Fixpoint format_from (s : string) (field : option string)
    (args : list string) (kwargs : gmap string string) : result string :=
  match s with
  | EmptyString =>
      match field with
      | None => Ok EmptyString
      | Some _ => Raise (ValueError "unmatched '{' in format")
      end
  | String c r =>
      match field with
      | Some name =>
          if Bytes.eqb c "}" then
            match name with
            | EmptyString =>
                match args with
                | [] => Raise (IndexError "tuple index out of range")
                | a :: args' =>
                    result_map (String.append a) (format_from r None args' kwargs)
                end
            | _ =>
                match kwargs !! name with
                | None => Raise (KeyError name)
                | Some v =>
                    result_map (String.append v) (format_from r None args kwargs)
                end
            end
          else if outside_fragment c then
            Raise (ValueError "field outside the modelled fragment")
          else format_from r (Some (Bytes.snoc name c)) args kwargs
      | None =>
          if Bytes.eqb c "{" then
            match r with
            | EmptyString =>
                Raise (ValueError "Single '{' encountered in format string")
            | String d r' =>
                if Bytes.eqb d "{"
                then result_map (String d) (format_from r' None args kwargs)
                else format_from r (Some EmptyString) args kwargs
            end
          else if Bytes.eqb c "}" then
            match r with
            | EmptyString =>
                Raise (ValueError "Single '}' encountered in format string")
            | String d r' =>
                if Bytes.eqb d "}"
                then result_map (String d) (format_from r' None args kwargs)
                else Raise (ValueError "Single '}' encountered in format string")
            end
          else result_map (String c) (format_from r None args kwargs)
      end
  end.

(** [pattern.format] applied to positional and keyword arguments. *)
Definition format (pattern : string) (args : list string)
    (kwargs : gmap string string) : result string :=
  format_from pattern None args kwargs.

(** The keyword dictionary of a call passing [k=v] and a starred
    dictionary [star]: a key given both
    explicitly and through the starred dictionary is a [TypeError]. *)
Definition call_kwargs (k v : string) (star : gmap string string)
  : result (gmap string string) :=
  match star !! k with
  | Some _ =>
      Raise (TypeError
               ("format() got multiple values for keyword argument '"
                +:+ k +:+ "'"))
  | None => Ok (<[k := v]> star)
  end.

End PyFormat.

(** ** ["{:f}".format(x)] for a float [x]

    A float is a [spec_float]: a finite one is [m * 2^e] exactly. The
    conversion is correctly rounded: the exact value is rounded to the
    nearest multiple of [10^-6], ties to even, and printed with all its
    integer digits and six decimals. *)

Module PyFloat.

(** [m * 2^e * 10^6] rounded to the nearest integer, ties to even. *)
Definition micros (m : positive) (e : Z) : N :=
  let n := N.pos m * 10 ^ 6 in
  match e with
  | Z0 => n
  | Zpos p => n * 2 ^ N.pos p
  | Zneg p =>
      let d := 2 ^ N.pos p in
      let q := n / d in
      let r := n mod d in
      if (d <? 2 * r) || ((2 * r =? d) && N.odd q) then q + 1 else q
  end.

Definition digit (n : N) : ascii := Bytes.chr (48 + n mod 10).

(** Decimal digits of [n], most significant first; [fuel] bounds their
    number. *)
Fixpoint decimal_acc (fuel : nat) (n : N) (acc : string) : string :=
  match fuel with
  | O => acc
  | S f =>
      let acc := String (digit n) acc in
      if n <? 10 then acc else decimal_acc f (n / 10) acc
  end.

Definition decimal (n : N) : string :=
  decimal_acc (S (N.to_nat (N.log2 n))) n EmptyString.

Definition six_decimals (n : N) : string :=
  String (digit (n / 100000))
    (String (digit (n / 10000))
       (String (digit (n / 1000))
          (String (digit (n / 100))
             (String (digit (n / 10))
                (String (digit n) EmptyString))))).

Definition fixed6 (q : N) : string :=
  decimal (q / 10 ^ 6) +:+ "." +:+ six_decimals (q mod 10 ^ 6).

Definition sign (s : bool) : string := if s then "-" else "".

Definition format_f (x : spec_float) : string :=
  match x with
  | S754_zero s => sign s +:+ fixed6 0
  | S754_infinity s => sign s +:+ "inf"
  | S754_nan => "nan"
  | S754_finite s m e => sign s +:+ fixed6 (micros m e)
  end.

Definition is_digit (c : ascii) : bool :=
  (48 <=? Bytes.ord c) && (Bytes.ord c <=? 57).

Definition is_decimal_char (c : ascii) : bool :=
  is_digit c || Bytes.eqb c ".".

(** The bytes [format_f] can put out, whatever the float. *)
Definition is_float_char (c : ascii) : bool :=
  Bytes.mem c "0123456789.-infa".

(** The number a string of decimal digits denotes. *)
Fixpoint value_acc (s : string) (acc : N) : N :=
  match s with
  | EmptyString => acc
  | String c r => value_acc r (10 * acc + (Bytes.ord c - 48))
  end.

Definition value (s : string) : N := value_acc s 0.






(** A reading of the clock after the epoch: finite and not negative. *)
Definition is_timestamp (x : spec_float) : bool :=
  match x with
  | S754_zero s => negb s
  | S754_finite s _ _ => negb s
  | _ => false
  end.

End PyFloat.

(** ** The process and its surroundings *)

(** What the script writes on standard output: the lines it prints and,
    because of [cgitb.enable()], the report of an uncaught exception. *)
Inductive output : Type :=
| Printed (line : string)
| CgitbReport (e : exn).

Record World : Type := mkWorld
  { environ : gmap string string;   (* os.environ *)
    files : gmap string string;     (* the readable files, by path *)
    clock : spec_float;             (* what time.time() returns *)
    entropy : nat -> ascii;         (* the bytes os.urandom hands out *)
    drawn : nat;                    (* how many of them were handed out *)
    stdout : list output }.

(** Computations that read and change the world and may raise. *)
Definition M (A : Type) : Type := World -> result A * World.

Definition ret {A} (a : A) : M A := fun w => (Ok a, w).

Definition bind {A B} (m : M A) (k : A -> M B) : M B :=
  fun w =>
    match m w with
    | (Ok a, w') => k a w'
    | (Raise e, w') => (Raise e, w')
    end.

Definition lift {A} (r : result A) : M A := fun w => (r, w).

Notation "'do' x <- m ;; k" := (bind m (fun x => k))
  (at level 10, x name, m at level 99, k at level 200).

(** [os.environ[key]] *)
Definition os_environ_getitem (key : string) : M string :=
  fun w =>
    match environ w !! key with
    | Some v => (Ok v, w)
    | None => (Raise (KeyError key), w)
    end.

(** [os.environ.get(key, default)] *)
Definition os_environ_get (key default : string) : M string :=
  fun w =>
    match environ w !! key with
    | Some v => (Ok v, w)
    | None => (Ok default, w)
    end.

(** [open(path, 'r')] followed by [f.read()] *)
Definition open_read (path : string) : M string :=
  fun w =>
    match files w !! path with
    | Some content => (Ok content, w)
    | None => (Raise (IOError path), w)
    end.

(** [time.time()] *)
Definition time_time : M spec_float := fun w => (Ok (clock w), w).

Fixpoint stream_bytes (src : nat -> ascii) (from count : nat) : string :=
  match count with
  | O => EmptyString
  | S c => String (src from) (stream_bytes src (S from) c)
  end.

(** [os.urandom(n)] *)
Definition os_urandom (n : nat) : M string :=
  fun w =>
    (Ok (stream_bytes (entropy w) (drawn w) n),
     mkWorld (environ w) (files w) (clock w) (entropy w) (drawn w + n)%nat
       (stdout w)).

(** [print(s)] *)
Definition print (s : string) : M unit :=
  fun w =>
    (Ok tt,
     mkWorld (environ w) (files w) (clock w) (entropy w) (drawn w)
       (stdout w ++ [Printed s])).

(** [d[key]] *)
Definition getitem (d : gmap string string) (key : string) : result string :=
  match d !! key with
  | Some v => Ok v
  | None => Raise (KeyError key)
  end.

(** ** isle.py *)

Definition CRLF : string := String (Bytes.chr 13) (String (Bytes.chr 10) EmptyString).

Definition SALT_LENGTH : nat := 4.
Definition RESOURCE_DIR : string := "./".
Definition REDIRECT_TARGET : string := "https://isle.stat.cmu.edu/#/shibboleth".

Definition read_secret : M string :=
  do secret <- open_read (RESOURCE_DIR +:+ "adata") ;;
  ret (Bytes.strip secret).

(** The parameter [env] is not used: the script reads [os.environ]. *)
Definition extract_saml_attrs {E : Type} (env : E) : M (gmap string string) :=
  do eppn <- os_environ_getitem "HTTP_EPPN" ;;
  do displayName <- os_environ_getitem "HTTP_DISPLAYNAME" ;;
  do affiliation <- os_environ_getitem "HTTP_AFFILIATION" ;;
  do url <- os_environ_get "QUERY_STRING" "" ;;
  ret (<["url" := url]>
         (<["affiliation" := affiliation]>
            (<["displayName" := displayName]>
               (<["eppn" := eppn]> ∅)))).

(** Returns attribute map with time and salt added. *)
Definition add_instance_attrs (attrs : gmap string string)
  : M (gmap string string) :=
  do now <- time_time ;;
  let attrs := <["time" := PyFloat.format_f now]> attrs in
  do salt <- os_urandom SALT_LENGTH ;;
  let attrs := <["salt" := Hex.hexlify salt]> attrs in
  ret attrs.

Definition token_pattern : string :=
  "{time} :: {salt} :: {secret} :: {eppn} :: {displayName} :: {affiliation} :: ISLE ROCKS!".

(** Returns attribute map with combined and hashed token added. *)
Definition add_token (attrs : gmap string string) : M (gmap string string) :=
  let pattern := token_pattern in
  do secret <- read_secret ;;
  do kwargs <- lift (PyFormat.call_kwargs "secret" secret attrs) ;;
  do token <- lift (PyFormat.format pattern [] kwargs) ;;
  let sha := SHA256.new in
  let sha := SHA256.update sha token in
  let attrs := <["token" := Hex.hexlify (SHA256.digest sha)]> attrs in
  ret attrs.

(** Return updated attribute map with fields url-safe encode *)
Definition encode_attributes (attrs : gmap string string)
  : result (gmap string string) :=
  result_bind (getitem attrs "eppn") (fun v =>
  let attrs := <["eppn" := Base64.urlsafe_b64encode v]> attrs in
  result_bind (getitem attrs "displayName") (fun v =>
  let attrs := <["displayName" := Base64.urlsafe_b64encode v]> attrs in
  result_bind (getitem attrs "affiliation") (fun v =>
  let attrs := <["affiliation" := Base64.urlsafe_b64encode v]> attrs in
  result_bind (getitem attrs "url") (fun v =>
  let attrs := <["url" := Base64.urlsafe_b64encode v]> attrs in
  result_bind (getitem attrs "salt") (fun v =>
  let attrs := <["salt" := v]> attrs in
  result_bind (getitem attrs "token") (fun v =>
  let attrs := <["token" := v]> attrs in
  Ok attrs)))))).

Definition query_pattern : string :=
  "token={token}&time={time}&salt={salt}&eppn={eppn}&name={displayName}&affil={affiliation}&url={url}".

Definition query_string (attrs : gmap string string) : result string :=
  let q := query_pattern in
  PyFormat.format q [] attrs.

(** Issues Redirect response to [target_url]. *)
Definition redirected_output (attrs : gmap string string) (target_url : string)
  : M unit :=
  do line <- lift (PyFormat.format ("Location: {}" +:+ CRLF) [target_url] ∅) ;;
  print line.

Definition redirect_url (request_data : gmap string string) : result string :=
  result_map (fun query => (REDIRECT_TARGET +:+ "?") +:+ query)
    (query_string request_data).

(** The statements at module level, after the definitions. The names
    [saml_attrs], [req_attrs] and [request_data] denote one dictionary,
    updated in place; each is read only after the call that produced it. *)
Definition main : M unit :=
  do env <- (fun w => (Ok (environ w), w)) ;;
  do saml_attrs <- extract_saml_attrs env ;;
  do req_attrs <- add_instance_attrs saml_attrs ;;
  do with_token <- add_token req_attrs ;;
  do request_data <- lift (encode_attributes with_token) ;;
  do redirect_url <- lift (redirect_url request_data) ;;
  redirected_output request_data redirect_url.

(** One execution of the script: [cgitb.enable()] makes an uncaught
    exception end in a report on standard output. *)
Definition run (w : World) : World :=
  match main w with
  | (Ok _, w') => w'
  | (Raise e, w') =>
      mkWorld (environ w') (files w') (clock w') (entropy w') (drawn w')
        (stdout w' ++ [CgitbReport e])
  end.

(** The redirects a run has emitted: the printed lines that start a
    [Location] header. *)
Definition is_redirect (o : output) : bool :=
  match o with
  | Printed line => Bytes.startswith "Location: " line
  | CgitbReport _ => false
  end.

Definition redirects (w : World) : list output :=
  List.filter is_redirect (stdout w).

(** ** What the script is expected to compute

    The definitions below are not the script's: they state, in the words of
    its specification, what its functions are compared with. *)

(** The dictionary claim extraction builds. *)
Definition saml_dict (eppn displayName affiliation url : string)
  : gmap string string :=
  <["url" := url]>
    (<["affiliation" := affiliation]>
       (<["displayName" := displayName]> (<["eppn" := eppn]> ∅))).

(** The world after [n] bytes were drawn, and after a line was printed. *)
Definition after_urandom (w : World) (n : nat) : World :=
  mkWorld (environ w) (files w) (clock w) (entropy w) (drawn w + n)%nat
    (stdout w).

Definition after_print (w : World) (line : string) : World :=
  mkWorld (environ w) (files w) (clock w) (entropy w) (drawn w)
    (stdout w ++ [Printed line]).

Definition after_report (w : World) (e : exn) : World :=
  mkWorld (environ w) (files w) (clock w) (entropy w) (drawn w)
    (stdout w ++ [CgitbReport e]).

(** The time and the salt a request gets in world [w]. *)
Definition fresh_time (w : World) : string := PyFloat.format_f (clock w).
Definition fresh_bytes (w : World) : string :=
  stream_bytes (entropy w) (drawn w) SALT_LENGTH.
Definition fresh_salt (w : World) : string := Hex.hexlify (fresh_bytes w).

(** The canonical string: the fields in their fixed order, separated by
    [" :: "], and the fixed suffix. *)
Definition canonical (time salt secret eppn displayName affiliation : string)
  : string :=
  time +:+ " :: " +:+ salt +:+ " :: " +:+ secret +:+ " :: " +:+ eppn
  +:+ " :: " +:+ displayName +:+ " :: " +:+ affiliation +:+ " :: ISLE ROCKS!".

(** The token a verifier recomputes from the ordered fields. *)
Definition token_of (time salt secret eppn displayName affiliation : string)
  : string :=
  Hex.hexlify
    (SHA256.hash (canonical time salt secret eppn displayName affiliation)).

(** A dictionary with its four claims encoded. *)
Definition encoded (attrs : gmap string string) (e d a u : string)
  : gmap string string :=
  <["url" := Base64.urlsafe_b64encode u]>
    (<["affiliation" := Base64.urlsafe_b64encode a]>
       (<["displayName" := Base64.urlsafe_b64encode d]>
          (<["eppn" := Base64.urlsafe_b64encode e]> attrs))).

(** The seven parameters of the redirect, in order. *)
Definition parameters (token time salt eppn name affil url : string)
  : list string :=
  ["token=" +:+ token; "time=" +:+ time; "salt=" +:+ salt; "eppn=" +:+ eppn;
   "name=" +:+ name; "affil=" +:+ affil; "url=" +:+ url].

(** The secret in world [w], when its file can be read. *)
Definition secret_of (w : World) : option string :=
  Bytes.strip <$> files w !! "./adata".

(** The parameters of the redirect a request with claims [e], [d], [a],
    continuation [u] and secret [k] gets in world [w]. *)
Definition request_parameters (w : World) (e d a u k : string) : list string :=
  parameters (token_of (fresh_time w) (fresh_salt w) k e d a)
    (fresh_time w) (fresh_salt w)
    (Base64.urlsafe_b64encode e) (Base64.urlsafe_b64encode d)
    (Base64.urlsafe_b64encode a) (Base64.urlsafe_b64encode u).

Definition location_line (target_url : string) : string :=
  "Location: " +:+ target_url +:+ CRLF.

Definition no_secret (attrs : gmap string string) : Prop :=
  attrs !! "secret" = None.

(** ** Sample requests *)

(** A request with every header, a continuation and a readable secret. *)
Definition sample_world : World :=
  mkWorld
    {[ "HTTP_EPPN" := "jdoe@example.edu"; "HTTP_DISPLAYNAME" := "Jane Doe";
       "HTTP_AFFILIATION" := "staff"; "QUERY_STRING" := "a=1&b=2" ]}
    {[ "./adata" := String (Bytes.chr 32) ("s3cr3t" +:+ CRLF) ]}
    (S754_finite false 1700000000 0)
    (fun i => nth i ["222"; "173"; "190"; "239"]%char "000"%char)
    0 [].

(** The same request without its [eppn] header. *)
Definition sample_world_no_eppn : World :=
  mkWorld
    {[ "HTTP_DISPLAYNAME" := "Jane Doe"; "HTTP_AFFILIATION" := "staff" ]}
    (files sample_world) (clock sample_world) (entropy sample_world) 0 [].

(** The same request when the secret file holds a space and a newline. *)
Definition sample_world_empty_secret : World :=
  mkWorld (environ sample_world)
    {[ "./adata" := String (Bytes.chr 32) (String (Bytes.chr 10) "") ]}
    (clock sample_world) (entropy sample_world) 0 [].

(** The same request when there is no secret file. *)
Definition sample_world_no_secret : World :=
  mkWorld (environ sample_world) ∅
    (clock sample_world) (entropy sample_world) 0 [].

(** An attribute map with the fields of the specification's example. *)
Definition sample_attrs : gmap string string :=
  {[ "time" := "1700000000.000000"; "salt" := "deadbeef";
     "eppn" := "jdoe@example.edu"; "displayName" := "Jane Doe";
     "affiliation" := "staff"; "url" := "a=1&b=2" ]}.

(** ** The diagnostic page, and what the properties below are stated with *)

(** The first of [fields] that the dictionary does not hold. *)
Fixpoint first_absent (m : gmap string string) (fields : list string)
  : option string :=
  match fields with
  | [] => None
  | f :: rest =>
      match m !! f with
      | None => Some f
      | Some _ => first_absent m rest
      end
  end.

(** The fields each function reads, in the order it reads them. *)
Definition headers : list string :=
  ["HTTP_EPPN"; "HTTP_DISPLAYNAME"; "HTTP_AFFILIATION"].
Definition token_fields : list string :=
  ["time"; "salt"; "eppn"; "displayName"; "affiliation"].
Definition encoded_fields : list string :=
  ["eppn"; "displayName"; "affiliation"; "url"; "salt"; "token"].
Definition query_fields : list string :=
  ["token"; "time"; "salt"; "eppn"; "displayName"; "affiliation"; "url"].

Definition multiple_values : exn :=
  TypeError "format() got multiple values for keyword argument 'secret'".

(** The bytes a redirect can contain: letters, digits and
    [- _ = . & ? : / #]. *)
Definition is_location_char (c : ascii) : bool :=
  Bytes.mem c
    "ABCDEFGHIJKLMNOPQRSTUVWXYZabcdefghijklmnopqrstuvwxyz0123456789-_=.&?:/#".

(** A request whose [eppn] header holds a line break and a header line. *)
Definition sample_world_line_breaks : World :=
  mkWorld
    {[ "HTTP_EPPN" := "jdoe" +:+ CRLF +:+ "Set-Cookie: a=b";
       "HTTP_DISPLAYNAME" := "Jane Doe"; "HTTP_AFFILIATION" := "staff" ]}
    {[ "./adata" := "s3cr3t" ]}
    (S754_finite false 1700000000 0)
    (fun i => nth i ["222"; "173"; "190"; "239"]%char "000"%char)
    0 [].
Definition LF : string := String (Bytes.chr 10) EmptyString.

(** Outputs HTML page showing information for diagnostic purposes.
    The working directory [os.getcwd()] reports is the argument [cwd]; the
    parameter [env], which defaults to [os.environ], is not used. *)
Definition diagnostic_output {E : Type} (cwd : string)
    (attrs : gmap string string) (target_url : string) (env : E) : M unit :=
  do _ <- print ("Content-type: text/html" +:+ CRLF) ;;
  do _ <- print ("<html>" +:+ LF +:+ "  <body>") ;;
  do url <- lift (getitem attrs "url") ;;
  do line <- lift (PyFormat.format "<h1>SSO Attributes for request {} </h1>" [url] ∅) ;;
  do _ <- print line ;;
  do eppn <- lift (getitem attrs "eppn") ;;
  do eppn <- lift (Base64.urlsafe_b64decode eppn) ;;
  do line <- lift (PyFormat.format "EPPN         {}" [eppn] ∅) ;;
  do _ <- print line ;;
  do _ <- print "<br/>" ;;
  do displayName <- lift (getitem attrs "displayName") ;;
  do displayName <- lift (Base64.urlsafe_b64decode displayName) ;;
  do line <- lift (PyFormat.format "Display Name {}" [displayName] ∅) ;;
  do _ <- print line ;;
  do _ <- print "<br/>" ;;
  do affiliation <- lift (getitem attrs "affiliation") ;;
  do affiliation <- lift (Base64.urlsafe_b64decode affiliation) ;;
  do line <- lift (PyFormat.format "Affiliation  {}" [affiliation] ∅) ;;
  do _ <- print line ;;
  do _ <- print "<br/>" ;;
  do line <- lift (PyFormat.format "Redirect to: {}" [target_url] ∅) ;;
  do _ <- print line ;;
  do _ <- print "<br/>" ;;
  do token <- lift (getitem attrs "token") ;;
  do line <- lift (PyFormat.format "Token        {}" [token] ∅) ;;
  do _ <- print line ;;
  do _ <- print "<br/>" ;;
  do line <- lift (PyFormat.format "Directory    {}" [cwd] ∅) ;;
  do _ <- print line ;;
  do _ <- print "<br/>" ;;
  do _ <- print "Diagnostic completed!" ;;
  print ("  </body>" +:+ LF +:+ "</html>").

(** The world after the lines [lines] were printed, in order. *)
Definition after_lines (w : World) (lines : list string) : World :=
  mkWorld (environ w) (files w) (clock w) (entropy w) (drawn w)
    (stdout w ++ map Printed lines).

(** The lines with which the diagnostic page opens. *)
Definition page_header : string := "Content-type: text/html" +:+ CRLF.
Definition page_open : string := "<html>" +:+ LF +:+ "  <body>".

(** A computation that changes nothing but standard output, to which it
    adds printed lines. *)
Definition prints_only {A : Type} (m : M A) : Prop :=
  forall w, exists lines, snd (m w) = after_lines w lines.

(** * Properties *)

(** ** Byte strings *)

Section BytesFacts.

Lemma append_nil_l (s : string) : "" +:+ s = s.
Proof. reflexivity. Qed.

Lemma append_cons c (a b : string) : String c a +:+ b = String c (a +:+ b).
Proof. reflexivity. Qed.

Lemma append_nil_r (s : string) : s +:+ "" = s.
Proof.
  induction s as [|c s IH]; [reflexivity|]. rewrite append_cons. congruence.
Qed.

Lemma append_assoc (a b c : string) : (a +:+ b) +:+ c = a +:+ b +:+ c.
Proof.
  induction a as [|x a IH]; [reflexivity|]. rewrite !append_cons. congruence.
Qed.

Lemma length_append (a b : string) :
  String.length (a +:+ b) = (String.length a + String.length b)%nat.
Proof.
  induction a as [|x a IH]; [reflexivity|]. rewrite append_cons. simpl.
  congruence.
Qed.

Lemma all_app p (a b : string) :
  Bytes.all p (a +:+ b) = Bytes.all p a && Bytes.all p b.
Proof.
  induction a as [|c a IH]; [reflexivity|]. rewrite append_cons. simpl.
  rewrite IH. apply andb_assoc.
Qed.

Lemma all_impl (p q : ascii -> bool) (s : string) :
  (forall c, p c = true -> q c = true) ->
  Bytes.all p s = true -> Bytes.all q s = true.
Proof.
  intros Hpq. induction s as [|c s IH]; simpl; [reflexivity|].
  intros [Hc Hs]%andb_prop. rewrite (Hpq _ Hc), (IH Hs). reflexivity.
Qed.

Lemma mem_app c (a b : string) :
  Bytes.mem c (a +:+ b) = Bytes.mem c a || Bytes.mem c b.
Proof.
  induction a as [|d a IH]; [reflexivity|]. rewrite append_cons. simpl.
  rewrite IH. apply orb_assoc.
Qed.

(** A string of [q]-bytes contains no byte that is not a [q]-byte. *)
Lemma all_not_mem (q : ascii -> bool) c (s : string) :
  q c = false -> Bytes.all q s = true -> Bytes.mem c s = false.
Proof.
  intros Hc. induction s as [|d s IH]; simpl; [reflexivity|].
  intros [Hd Hs]%andb_prop. rewrite (IH Hs), orb_false_r.
  unfold Bytes.eqb. destruct (Ascii.eqb_spec c d) as [->|]; congruence.
Qed.

(** Splitting at a separator that the first piece does not contain. *)
Lemma split_piece sep (p rest : string) :
  Bytes.mem sep p = false ->
  Bytes.split sep (p +:+ String sep rest) = p :: Bytes.split sep rest.
Proof.
  induction p as [|c p IH]; rewrite ?append_nil_l, ?append_cons; simpl.
  - intros _. unfold Bytes.eqb. rewrite Ascii.eqb_refl. reflexivity.
  - intros [Hc Hp]%orb_false_elim. rewrite (IH Hp).
    unfold Bytes.eqb in *. rewrite Ascii.eqb_sym, Hc. reflexivity.
Qed.

Lemma split_last sep (p : string) :
  Bytes.mem sep p = false -> Bytes.split sep p = [p].
Proof.
  induction p as [|c p IH]; simpl; [reflexivity|].
  intros [Hc Hp]%orb_false_elim. rewrite (IH Hp).
  unfold Bytes.eqb in *. rewrite Ascii.eqb_sym, Hc. reflexivity.
Qed.

(** [split] undoes [join] on pieces free of the separator. *)
Lemma split_join sep (parts : list string) :
  parts <> [] ->
  Forall (fun p => Bytes.mem sep p = false) parts ->
  Bytes.split sep (Bytes.join (String sep "") parts) = parts.
Proof.
  intros Hne Hall. induction Hall as [|p ps Hp Hps IH]; [congruence|].
  destruct ps as [|q ps].
  - simpl. apply split_last, Hp.
  - change (Bytes.join (String sep "") (p :: q :: ps))
      with (p +:+ String sep "" +:+ Bytes.join (String sep "") (q :: ps)).
    rewrite (append_cons sep), append_nil_l.
    rewrite split_piece by exact Hp. f_equal. apply IH. discriminate.
Qed.

End BytesFacts.

(** ** Hexadecimal rendering *)

Section HexFacts.

Lemma hex_byte_lower c : Bytes.all Hex.is_lower_hex (Hex.byte c) = true.
Proof. destruct c as [[] [] [] [] [] [] [] []]; reflexivity. Qed.

Lemma hexlify_lower s : Bytes.all Hex.is_lower_hex (Hex.hexlify s) = true.
Proof.
  induction s as [|c s IH]; [reflexivity|].
  change (Hex.hexlify (String c s)) with (Hex.byte c +:+ Hex.hexlify s).
  rewrite all_app, hex_byte_lower, IH. reflexivity.
Qed.

Lemma hexlify_length s :
  String.length (Hex.hexlify s) = (2 * String.length s)%nat.
Proof.
  induction s as [|c s IH]; [reflexivity|].
  change (Hex.hexlify (String c s)) with (Hex.byte c +:+ Hex.hexlify s).
  rewrite length_append, IH. simpl. lia.
Qed.

Lemma unbyte_byte c : Hex.unbyte (Hex.byte c) = c.
Proof. destruct c as [[] [] [] [] [] [] [] []]; reflexivity. Qed.

Lemma hex_byte_inj c d : Hex.byte c = Hex.byte d -> c = d.
Proof.
  intros H. rewrite <- (unbyte_byte c), <- (unbyte_byte d), H. reflexivity.
Qed.

(** Distinct byte strings have distinct renderings. *)
Lemma hexlify_inj s t : Hex.hexlify s = Hex.hexlify t -> s = t.
Proof.
  revert t. induction s as [|c s IH]; intros [|d t] H;
    [reflexivity | discriminate H | discriminate H |].
  change (Hex.byte c +:+ Hex.hexlify s = Hex.byte d +:+ Hex.hexlify t) in H.
  assert (Hex.byte c = Hex.byte d /\ Hex.hexlify s = Hex.hexlify t) as [Hb Hr].
  { unfold Hex.byte in *. rewrite !append_cons, !append_nil_l in H.
    injection H as H1 H2 H3. split; congruence. }
  f_equal; [apply hex_byte_inj, Hb | apply IH, Hr].
Qed.

End HexFacts.

(** ** Properties checked byte by byte *)

Section ByteEnumeration.

Lemma in_all_bytes c : In c Bytes.all_bytes.
Proof.
  assert (existsb (Ascii.eqb c) Bytes.all_bytes = true) as H.
  { destruct c as [[] [] [] [] [] [] [] []]; vm_compute; reflexivity. }
  apply existsb_exists in H as (d & Hd & Heq).
  apply Ascii.eqb_eq in Heq. congruence.
Qed.

Lemma for_all_bytes_spec p :
  Bytes.for_all_bytes p = true -> forall c, p c = true.
Proof.
  unfold Bytes.for_all_bytes. rewrite forallb_forall.
  intros H c. apply H, in_all_bytes.
Qed.

Lemma for_all_bytes2_spec (p : ascii -> ascii -> bool) :
  Bytes.for_all_bytes (fun x => Bytes.for_all_bytes (p x)) = true ->
  forall x y, p x y = true.
Proof.
  intros H x y.
  apply (for_all_bytes_spec (p x)), (for_all_bytes_spec _ H).
Qed.

Lemma chr_ord c : Bytes.chr (Bytes.ord c) = c.
Proof. apply ascii_N_embedding. Qed.

End ByteEnumeration.

(** Closes a goal [forall x (y) : ascii, b = true] by running [b] on every
    byte (pair of bytes). *)
Ltac by_bytes :=
  first
    [ apply for_all_bytes_spec; vm_compute; reflexivity
    | apply for_all_bytes2_spec; vm_compute; reflexivity ].

(** ** Base64 *)

Section Base64Facts.

Import Base64.

(** Induction over a string three bytes at a time. *)
Lemma string_by_threes (P : string -> Prop) :
  P "" ->
  (forall x, P (String x "")) ->
  (forall x y, P (String x (String y ""))) ->
  (forall x y z r, P r -> P (String x (String y (String z r)))) ->
  forall s, P s.
Proof.
  intros H0 H1 H2 H3 s.
  enough (P s /\ (forall x, P (String x s))
          /\ (forall x y, P (String x (String y s)))) by tauto.
  induction s as [|c s (IHa & IHb & IHc)]; auto.
Qed.

Lemma b2a_base64_three x y z r :
  b2a_base64 (String x (String y (String z r))) =
  String (b2a (sx0 x)) (String (b2a (sx1 x y)) (String (b2a (sx2 y z))
    (String (b2a (sx3 z)) (b2a_base64 r)))).
Proof. reflexivity. Qed.

Lemma b2a_base64_two x y :
  b2a_base64 (String x (String y "")) =
  String (b2a (sx0 x)) (String (b2a (sx1 x y)) (String (b2a (sx2 y zero))
    (String BASE64_PAD ""))).
Proof.
  unfold sx2, zero. change (N.shiftr (Bytes.ord (Bytes.chr 0)) 6) with 0.
  rewrite N.lor_0_r. reflexivity.
Qed.

Lemma b2a_base64_one x :
  b2a_base64 (String x "") =
  String (b2a (sx0 x)) (String (b2a (sx1 x zero))
    (String BASE64_PAD (String BASE64_PAD ""))).
Proof.
  unfold sx1, zero. change (N.shiftr (Bytes.ord (Bytes.chr 0)) 4) with 0.
  rewrite N.lor_0_r. reflexivity.
Qed.

Lemma sx0_ok x : sextet_ok (sx0 x) = true.
Proof. revert x. by_bytes. Qed.

Lemma sx1_ok x y : sextet_ok (sx1 x y) = true.
Proof. revert x y. by_bytes. Qed.

Lemma sx2_ok y z : sextet_ok (sx2 y z) = true.
Proof. revert y z. by_bytes. Qed.

Lemma sx3_ok z : sextet_ok (sx3 z) = true.
Proof. revert z. by_bytes. Qed.

Lemma sextet_ok_elim n :
  sextet_ok n = true ->
  skipped (b2a n) = false /\ Bytes.eqb (b2a n) BASE64_PAD = false
  /\ table_a2b_base64 (b2a n) = Some n.
Proof.
  unfold sextet_ok. rewrite !andb_true_iff, !negb_true_iff.
  intros [[[[[? ?] ?%bool_decide_eq_true] _] _] _]. auto.
Qed.

(** One turn of the decoder's loop on an alphabet byte. *)
Lemma a2b_loop_sextet n rest quad_pos leftchar leftbits :
  sextet_ok n = true ->
  a2b_loop (String (b2a n) rest) quad_pos leftchar leftbits =
  if 8 <=? leftbits + 6 then
    result_map
      (String (Bytes.chr
                 (N.land (N.shiftr (N.lor (N.shiftl leftchar 6) n)
                            (leftbits + 6 - 8)) 255)))
      (a2b_loop rest (N.land (quad_pos + 1) 3)
         (N.land (N.lor (N.shiftl leftchar 6) n)
            (N.shiftl 1 (leftbits + 6 - 8) - 1))
         (leftbits + 6 - 8))
  else
    a2b_loop rest (N.land (quad_pos + 1) 3)
      (N.lor (N.shiftl leftchar 6) n) (leftbits + 6).
Proof.
  intros (Hskip & Hpad & Htbl)%sextet_ok_elim.
  cbn [a2b_loop]. rewrite Hskip, Hpad, Htbl. reflexivity.
Qed.

Lemma registers12_ok x y : registers12 x y = true.
Proof. revert x y. by_bytes. Qed.

Lemma registers23_ok y z : registers23 y z = true.
Proof. revert y z. by_bytes. Qed.

Lemma registers34_ok z : registers34 z = true.
Proof. revert z. by_bytes. Qed.

(** The decoder on the first two bytes of a group. *)
Lemma a2b_loop_two_sextets x y rest :
  a2b_loop (String (b2a (sx0 x)) (String (b2a (sx1 x y)) rest)) 0 0 0 =
  result_map (String x) (a2b_loop rest 2 (N.shiftr (Bytes.ord y) 4) 4).
Proof.
  rewrite (a2b_loop_sextet _ _ _ _ _ (sx0_ok x)).
  change (8 <=? 0 + 6) with false. cbv iota.
  rewrite (a2b_loop_sextet _ _ _ _ _ (sx1_ok x y)).
  change (8 <=? 0 + 6 + 6) with true. cbv iota.
  change (0 + 6 + 6 - 8) with 4. change (N.land (N.land (0 + 1) 3 + 1) 3) with 2.
  pose proof (registers12_ok x y) as [H1 H2]%andb_prop.
  apply N.eqb_eq in H1, H2. unfold registers12 in *.
  change (N.shiftl 1 4 - 1) with 15.
  rewrite H1, H2, chr_ord. reflexivity.
Qed.

(** The decoder on the third byte of a group. *)
Lemma a2b_loop_third_sextet y z rest :
  a2b_loop (String (b2a (sx2 y z)) rest) 2 (N.shiftr (Bytes.ord y) 4) 4 =
  result_map (String y) (a2b_loop rest 3 (N.shiftr (Bytes.ord z) 6) 2).
Proof.
  rewrite (a2b_loop_sextet _ _ _ _ _ (sx2_ok y z)).
  change (8 <=? 4 + 6) with true. cbv iota.
  change (4 + 6 - 8) with 2. change (N.land (2 + 1) 3) with 3.
  pose proof (registers23_ok y z) as [H1 H2]%andb_prop.
  apply N.eqb_eq in H1, H2.
  change (N.shiftl 1 2 - 1) with 3.
  rewrite H1, H2, chr_ord. reflexivity.
Qed.

(** The decoder on the fourth byte of a group. *)
Lemma a2b_loop_fourth_sextet z rest :
  a2b_loop (String (b2a (sx3 z)) rest) 3 (N.shiftr (Bytes.ord z) 6) 2 =
  result_map (String z) (a2b_loop rest 0 0 0).
Proof.
  rewrite (a2b_loop_sextet _ _ _ _ _ (sx3_ok z)).
  change (8 <=? 2 + 6) with true. cbv iota.
  change (2 + 6 - 8) with 0. change (N.land (3 + 1) 3) with 0.
  pose proof (registers34_ok z) as H1. apply N.eqb_eq in H1.
  change (N.shiftl 1 0 - 1) with 0.
  rewrite H1, N.land_0_r, chr_ord. reflexivity.
Qed.

(** Decoding the standard encoding gives the bytes back. *)
Lemma a2b_b2a s : a2b_base64 (b2a_base64 s) = Ok s.
Proof.
  unfold a2b_base64. induction s as [| x | x y | x y z r IH] using string_by_threes.
  - reflexivity.
  - rewrite b2a_base64_one, a2b_loop_two_sextets. reflexivity.
  - rewrite b2a_base64_two, a2b_loop_two_sextets, a2b_loop_third_sextet.
    reflexivity.
  - rewrite b2a_base64_three, a2b_loop_two_sextets, a2b_loop_third_sextet,
      a2b_loop_fourth_sextet, IH.
    reflexivity.
Qed.

(** Every byte of the standard encoding is the byte of a sextet or a pad. *)
Lemma b2a_base64_all (q : ascii -> bool) s :
  (forall n, sextet_ok n = true -> q (b2a n) = true) ->
  q BASE64_PAD = true ->
  Bytes.all q (b2a_base64 s) = true.
Proof.
  intros Hq Hpad.
  induction s as [| x | x y | x y z r IH] using string_by_threes.
  - reflexivity.
  - rewrite b2a_base64_one. simpl.
    rewrite (Hq _ (sx0_ok x)), (Hq _ (sx1_ok x zero)), Hpad. reflexivity.
  - rewrite b2a_base64_two. simpl.
    rewrite (Hq _ (sx0_ok x)), (Hq _ (sx1_ok x y)), (Hq _ (sx2_ok y zero)), Hpad.
    reflexivity.
  - rewrite b2a_base64_three. simpl.
    rewrite (Hq _ (sx0_ok x)), (Hq _ (sx1_ok x y)), (Hq _ (sx2_ok y z)),
      (Hq _ (sx3_ok z)), IH.
    reflexivity.
Qed.

Lemma all_translate (q : ascii -> bool) tbl s :
  Bytes.all q (Bytes.translate tbl s)
  = Bytes.all (fun c => q (Bytes.translate1 tbl c)) s.
Proof. induction s as [|c s IH]; simpl; congruence. Qed.

Lemma translate_back t1 t2 s :
  Bytes.all (fun c => Bytes.eqb (Bytes.translate1 t2 (Bytes.translate1 t1 c)) c) s
  = true ->
  Bytes.translate t2 (Bytes.translate t1 s) = s.
Proof.
  induction s as [|c s IH]; cbn [Bytes.all Bytes.translate]; [reflexivity|].
  intros [Hc Hs]%andb_prop. apply Ascii.eqb_eq in Hc. rewrite Hc, (IH Hs).
  reflexivity.
Qed.

(** The URL-safe encoding uses the URL-safe alphabet only. *)
Lemma urlsafe_b64encode_alphabet s :
  Bytes.all is_urlsafe (urlsafe_b64encode s) = true.
Proof.
  unfold urlsafe_b64encode, b64encode. rewrite all_translate.
  apply b2a_base64_all; [|reflexivity].
  intros n Hn. unfold sextet_ok in Hn. rewrite !andb_true_iff in Hn.
  tauto.
Qed.

(** Translating back undoes the URL-safe translation of an encoding. *)
Lemma urlsafe_translation_undone s :
  Bytes.translate _urlsafe_decode_translation
    (Bytes.translate _urlsafe_encode_translation (b2a_base64 s))
  = b2a_base64 s.
Proof.
  apply translate_back, b2a_base64_all; [|reflexivity].
  intros n Hn. unfold sextet_ok in Hn. rewrite !andb_true_iff in Hn. tauto.
Qed.

(** Decoding a URL-safe encoding gives the bytes back. *)
Lemma urlsafe_b64_roundtrip s :
  urlsafe_b64decode (urlsafe_b64encode s) = Ok s.
Proof.
  unfold urlsafe_b64decode, urlsafe_b64encode, b64decode, b64encode.
  rewrite urlsafe_translation_undone. apply a2b_b2a.
Qed.

Lemma length_translate tbl s :
  String.length (Bytes.translate tbl s) = String.length s.
Proof. induction s as [|c s IH]; simpl; congruence. Qed.

(** The encoding keeps its padding: four bytes for every group of three,
    the last group complete or not. *)
Lemma urlsafe_b64encode_length s :
  String.length (urlsafe_b64encode s)
  = (4 * ((String.length s + 2) / 3))%nat.
Proof.
  unfold urlsafe_b64encode, b64encode. rewrite length_translate.
  induction s as [| x | x y | x y z r IH] using string_by_threes;
    try reflexivity.
  rewrite b2a_base64_three. cbn [String.length]. rewrite IH.
  replace (S (S (S (String.length r))) + 2)%nat
    with (1 * 3 + (String.length r + 2))%nat by lia.
  rewrite Nat.div_add_l by discriminate. lia.
Qed.

(** A value that is not empty has an encoding that is not empty. *)
Lemma urlsafe_b64encode_nonempty s :
  s <> "" -> urlsafe_b64encode s <> "".
Proof.
  intros Hs He. apply (f_equal String.length) in He.
  rewrite urlsafe_b64encode_length in He.
  destruct s as [|c s]; [congruence|]. cbn [String.length] in He.
  assert (1 <= (S (String.length s) + 2) / 3)%nat.
  { apply Nat.div_le_lower_bound; lia. }
  lia.
Qed.

End Base64Facts.

(** ** Formatting *)

Section FormatFacts.

Lemma format_token_pattern (kw : gmap string string) t s k e d a :
  kw !! "time" = Some t -> kw !! "salt" = Some s -> kw !! "secret" = Some k ->
  kw !! "eppn" = Some e -> kw !! "displayName" = Some d ->
  kw !! "affiliation" = Some a ->
  PyFormat.format token_pattern [] kw =
  Ok (t +:+ " :: " +:+ s +:+ " :: " +:+ k +:+ " :: " +:+ e +:+ " :: " +:+ d
      +:+ " :: " +:+ a +:+ " :: ISLE ROCKS!").
Proof.
  intros Ht Hs Hk He Hd Ha.
  unfold PyFormat.format, token_pattern.
  simpl. rewrite Ht, Hs, Hk, He, Hd, Ha. reflexivity.
Qed.

Lemma format_query_pattern (kw : gmap string string) tok t s e d a u :
  kw !! "token" = Some tok -> kw !! "time" = Some t ->
  kw !! "salt" = Some s -> kw !! "eppn" = Some e ->
  kw !! "displayName" = Some d -> kw !! "affiliation" = Some a ->
  kw !! "url" = Some u ->
  PyFormat.format query_pattern [] kw =
  Ok ("token=" +:+ tok +:+ "&time=" +:+ t +:+ "&salt=" +:+ s +:+ "&eppn=" +:+ e
      +:+ "&name=" +:+ d +:+ "&affil=" +:+ a +:+ "&url=" +:+ u).
Proof.
  intros Htok Ht Hs He Hd Ha Hu.
  unfold PyFormat.format, query_pattern.
  simpl. rewrite Htok, Ht, Hs, He, Hd, Ha, Hu. simpl.
  rewrite append_nil_r. reflexivity.
Qed.

Lemma format_location (target_url : string) :
  PyFormat.format ("Location: {}" +:+ CRLF) [target_url] ∅ =
  Ok ("Location: " +:+ target_url +:+ CRLF).
Proof. reflexivity. Qed.

End FormatFacts.

(** ** Rendering of floats *)

Section FloatFacts.

Import PyFloat.

Lemma digit_is_digit n : is_digit (digit n) = true.
Proof.
  unfold digit. pose proof (N.mod_upper_bound n 10 ltac:(discriminate)) as H.
  generalize dependent (n mod 10). intros k Hk.
  assert (k = 0 \/ k = 1 \/ k = 2 \/ k = 3 \/ k = 4 \/ k = 5 \/ k = 6
          \/ k = 7 \/ k = 8 \/ k = 9) as Hcases by lia.
  repeat destruct Hcases as [-> | Hcases]; try subst k; reflexivity.
Qed.

Lemma digit_value n : Bytes.ord (digit n) - 48 = n mod 10.
Proof.
  unfold digit. pose proof (N.mod_upper_bound n 10 ltac:(discriminate)) as H.
  generalize dependent (n mod 10). intros k Hk.
  unfold Bytes.ord, Bytes.chr. rewrite N_ascii_embedding; lia.
Qed.

Lemma decimal_acc_digits fuel n acc :
  Bytes.all is_digit acc = true ->
  Bytes.all is_digit (decimal_acc fuel n acc) = true.
Proof.
  revert n acc. induction fuel as [|f IH]; intros n acc Hacc; simpl; [exact Hacc|].
  destruct (n <? 10).
  - simpl. rewrite digit_is_digit, Hacc. reflexivity.
  - apply IH. simpl. rewrite digit_is_digit, Hacc. reflexivity.
Qed.

Lemma decimal_acc_length fuel n acc :
  (String.length acc + (if fuel is O then 0 else 1)
   <= String.length (decimal_acc fuel n acc))%nat.
Proof.
  revert n acc. induction fuel as [|f IH]; intros n acc; simpl; [lia|].
  destruct (n <? 10); simpl; [lia|].
  specialize (IH (n / 10) (String (digit n) acc)). simpl in IH.
  destruct f; lia.
Qed.

Lemma value_acc_app a b acc :
  value_acc (a +:+ b) acc = value_acc b (value_acc a acc).
Proof.
  revert acc. induction a as [|c a IH]; intros acc; [reflexivity|].
  rewrite append_cons. simpl. apply IH.
Qed.

(** The fuel of [decimal] is enough: the digits denote the number. *)
Lemma decimal_acc_value fuel n acc :
  n < 2 ^ N.of_nat fuel -> fuel <> O ->
  value_acc (decimal_acc fuel n acc) 0 = value_acc acc n.
Proof.
  revert n acc. induction fuel as [|f IH]; intros n acc Hn Hf; [congruence|].
  cbn [decimal_acc]. destruct (N.ltb_spec n 10) as [Hlt|Hge].
  - cbn [value_acc]. rewrite digit_value, N.mod_small by exact Hlt. reflexivity.
  - destruct f as [|f].
    + change (2 ^ N.of_nat 1) with 2 in Hn. lia.
    + assert (n / 10 < 2 ^ N.of_nat (S f)) as Hdiv.
      { rewrite Nat2N.inj_succ, N.pow_succ_r' in Hn.
        apply N.Div0.div_lt_upper_bound. lia. }
      rewrite (IH _ _ Hdiv ltac:(discriminate)).
      cbn [value_acc]. rewrite digit_value. f_equal.
      pose proof (N.div_mod n 10 ltac:(discriminate)). lia.
Qed.

Lemma decimal_value n : value (decimal n) = n.
Proof.
  unfold value, decimal. rewrite decimal_acc_value; [reflexivity| |discriminate].
  rewrite Nat2N.inj_succ, N2Nat.id.
  destruct n as [|p]; [reflexivity|]. apply N.log2_spec. reflexivity.
Qed.

Lemma decimal_digits n : Bytes.all is_digit (decimal n) = true.
Proof. apply decimal_acc_digits. reflexivity. Qed.

Lemma decimal_nonempty n : decimal n <> "".
Proof.
  intros H. pose proof (decimal_acc_length (S (N.to_nat (N.log2 n))) n "") as L.
  fold (decimal n) in L. rewrite H in L. simpl in L. lia.
Qed.

Lemma six_decimals_digits n : Bytes.all is_digit (six_decimals n) = true.
Proof.
  unfold six_decimals. cbn [Bytes.all]. rewrite !digit_is_digit. reflexivity.
Qed.

Lemma six_decimals_length n : String.length (six_decimals n) = 6%nat.
Proof. reflexivity. Qed.

Lemma six_decimals_value n : n < 10 ^ 6 -> value (six_decimals n) = n.
Proof.
  intros Hn. unfold value, six_decimals. cbn [value_acc].
  rewrite !digit_value. change (10 ^ 6) with 1000000 in Hn.
  change 100000 with (10 * 10 * 10 * 10 * 10).
  change 10000 with (10 * 10 * 10 * 10).
  change 1000 with (10 * 10 * 10). change 100 with (10 * 10).
  rewrite <- !N.Div0.div_div.
  pose proof (N.div_mod n 10 ltac:(discriminate)).
  pose proof (N.div_mod (n / 10) 10 ltac:(discriminate)).
  pose proof (N.div_mod (n / 10 / 10) 10 ltac:(discriminate)).
  pose proof (N.div_mod (n / 10 / 10 / 10) 10 ltac:(discriminate)).
  pose proof (N.div_mod (n / 10 / 10 / 10 / 10) 10 ltac:(discriminate)).
  pose proof (N.div_mod (n / 10 / 10 / 10 / 10 / 10) 10 ltac:(discriminate)).
  generalize dependent (n / 10 / 10 / 10 / 10 / 10 / 10).
  generalize dependent ((n / 10 / 10 / 10 / 10 / 10) mod 10).
  generalize dependent (n / 10 / 10 / 10 / 10 / 10).
  generalize dependent ((n / 10 / 10 / 10 / 10) mod 10).
  generalize dependent (n / 10 / 10 / 10 / 10).
  generalize dependent ((n / 10 / 10 / 10) mod 10).
  generalize dependent (n / 10 / 10 / 10).
  generalize dependent ((n / 10 / 10) mod 10).
  generalize dependent (n / 10 / 10).
  generalize dependent ((n / 10) mod 10).
  generalize dependent (n / 10).
  generalize dependent (n mod 10).
  intros. lia.
Qed.

(** [micros] is the nearest integer to [m * 2^e * 10^6]: exact for
    [0 <= e], within half a unit for [e < 0]. *)
Lemma micros_nearest m e :
  let scale := 2 ^ Z.to_N (- e) in
  let exact := N.pos m * 10 ^ 6 * 2 ^ Z.to_N e in
  2 * (micros m e * scale) <= 2 * exact + scale
  /\ 2 * exact <= 2 * (micros m e * scale) + scale.
Proof.
  destruct e as [|p|p]; cbv zeta; cbn [micros]; simpl (Z.to_N _).
  - change (2 ^ 0) with 1. generalize (N.pos m * 10 ^ 6). lia.
  - change (2 ^ 0) with 1. generalize (N.pos m * 10 ^ 6 * 2 ^ N.pos p). lia.
  - change (2 ^ 0) with 1. rewrite N.mul_1_r.
    set (n := N.pos m * 10 ^ 6). set (d := 2 ^ N.pos p).
    assert (d <> 0) as Hd by (apply N.pow_nonzero; discriminate).
    pose proof (N.div_mod n d Hd) as Hdm.
    pose proof (N.mod_upper_bound n d Hd) as Hr.
    generalize dependent (n mod d). generalize dependent (n / d).
    intros q r Hdm Hr.
    destruct (N.ltb_spec d (2 * r)); cbn [orb].
    + nia.
    + destruct (N.eqb_spec (2 * r) d); cbn [andb]; [destruct (N.odd q)|]; nia.
Qed.



Lemma digit_decimal_char c : is_digit c = true -> is_decimal_char c = true.
Proof. unfold is_decimal_char. intros ->. reflexivity. Qed.

Lemma fixed6_digits q : Bytes.all is_decimal_char (fixed6 q) = true.
Proof.
  unfold fixed6. rewrite !all_app.
  rewrite (all_impl _ _ _ digit_decimal_char (decimal_digits _)).
  rewrite (all_impl _ _ _ digit_decimal_char (six_decimals_digits _)).
  reflexivity.
Qed.

(** The integer digits and the six decimals of [fixed6 q] denote [q]. *)
Lemma fixed6_value q :
  value (decimal (q / 10 ^ 6)) * 10 ^ 6 + value (six_decimals (q mod 10 ^ 6)) = q.
Proof.
  rewrite decimal_value, six_decimals_value
    by (apply N.mod_upper_bound; discriminate).
  pose proof (N.div_mod q (10 ^ 6) ltac:(discriminate)). lia.
Qed.

Lemma decimal_float_char c :
  is_decimal_char c = true -> is_float_char c = true.
Proof.
  intros H.
  assert (implb (is_decimal_char c) (is_float_char c) = true) as Himp
    by (revert c H; intros c _; revert c; by_bytes).
  rewrite H in Himp. exact Himp.
Qed.

(** Whatever the float, its rendering is made of these bytes. *)
Lemma format_f_chars x : Bytes.all is_float_char (format_f x) = true.
Proof.
  assert (forall q, Bytes.all is_float_char (fixed6 q) = true) as Hfix.
  { intros q. apply (all_impl _ _ _ decimal_float_char), fixed6_digits. }
  destruct x as [[]|[]| |[] m e]; cbn [format_f sign];
    rewrite ?append_nil_l, ?all_app, ?Hfix; reflexivity.
Qed.

(** A reading of the clock after the epoch renders as digits and a dot. *)
Lemma format_f_timestamp x :
  is_timestamp x = true ->
  Bytes.all is_decimal_char (format_f x) = true.
Proof.
  destruct x as [[]|[]| |[] m e]; cbn [is_timestamp negb]; try discriminate;
    intros _; cbn [format_f sign]; rewrite append_nil_l; apply fixed6_digits.
Qed.

End FloatFacts.
(** ** The functions of the script *)

Section ScriptFacts.

Implicit Types (attrs : gmap string string) (w : World).

Lemma read_secret_eq w :
  read_secret w =
  match files w !! "./adata" with
  | Some content => (Ok (Bytes.strip content), w)
  | None => (Raise (IOError "./adata"), w)
  end.
Proof.
  unfold read_secret, bind, open_read, ret.
  change (RESOURCE_DIR +:+ "adata") with "./adata".
  destruct (files w !! "./adata"); reflexivity.
Qed.

Lemma extract_saml_attrs_eq {E} (env : E) w :
  extract_saml_attrs env w =
  match environ w !! "HTTP_EPPN", environ w !! "HTTP_DISPLAYNAME",
        environ w !! "HTTP_AFFILIATION" with
  | Some e, Some d, Some a =>
      (Ok (saml_dict e d a (default "" (environ w !! "QUERY_STRING"))), w)
  | None, _, _ => (Raise (KeyError "HTTP_EPPN"), w)
  | Some _, None, _ => (Raise (KeyError "HTTP_DISPLAYNAME"), w)
  | Some _, Some _, None => (Raise (KeyError "HTTP_AFFILIATION"), w)
  end.
Proof.
  unfold extract_saml_attrs, bind, os_environ_getitem, os_environ_get, ret.
  destruct (environ w !! "HTTP_EPPN"); [|reflexivity].
  destruct (environ w !! "HTTP_DISPLAYNAME"); [|reflexivity].
  destruct (environ w !! "HTTP_AFFILIATION"); [|reflexivity].
  destruct (environ w !! "QUERY_STRING"); reflexivity.
Qed.

Lemma add_instance_attrs_eq attrs w :
  add_instance_attrs attrs w =
  (Ok (<["salt" := fresh_salt w]> (<["time" := fresh_time w]> attrs)),
   after_urandom w SALT_LENGTH).
Proof. reflexivity. Qed.

Lemma add_token_eq attrs w content t s e d a :
  files w !! "./adata" = Some content ->
  attrs !! "secret" = None ->
  attrs !! "time" = Some t -> attrs !! "salt" = Some s ->
  attrs !! "eppn" = Some e -> attrs !! "displayName" = Some d ->
  attrs !! "affiliation" = Some a ->
  add_token attrs w =
  (Ok (<["token" := token_of t s (Bytes.strip content) e d a]> attrs), w).
Proof.
  intros Hf Hk Ht Hs He Hd Ha.
  unfold add_token, bind. rewrite read_secret_eq, Hf.
  unfold lift, PyFormat.call_kwargs. rewrite Hk.
  rewrite (format_token_pattern _ t s (Bytes.strip content) e d a);
    [reflexivity|..]; by simplify_map_eq.
Qed.

Lemma add_token_unreadable attrs w :
  files w !! "./adata" = None ->
  add_token attrs w = (Raise (IOError "./adata"), w).
Proof.
  intros Hf. unfold add_token, bind. rewrite read_secret_eq, Hf. reflexivity.
Qed.

Lemma encode_attributes_eq attrs e d a u s tok :
  attrs !! "eppn" = Some e -> attrs !! "displayName" = Some d ->
  attrs !! "affiliation" = Some a -> attrs !! "url" = Some u ->
  attrs !! "salt" = Some s -> attrs !! "token" = Some tok ->
  encode_attributes attrs = Ok (encoded attrs e d a u).
Proof.
  intros He Hd Ha Hu Hs Htok. unfold encode_attributes, getitem, result_bind.
  simplify_map_eq.
  rewrite (insert_id _ "salt" s) by by simplify_map_eq.
  rewrite (insert_id _ "token" tok) by by simplify_map_eq.
  reflexivity.
Qed.

Lemma query_string_eq attrs tok t s e d a u :
  attrs !! "token" = Some tok -> attrs !! "time" = Some t ->
  attrs !! "salt" = Some s -> attrs !! "eppn" = Some e ->
  attrs !! "displayName" = Some d -> attrs !! "affiliation" = Some a ->
  attrs !! "url" = Some u ->
  query_string attrs = Ok (Bytes.join "&" (parameters tok t s e d a u)).
Proof.
  intros. unfold query_string.
  rewrite (format_query_pattern attrs tok t s e d a u) by assumption.
  reflexivity.
Qed.

Lemma redirected_output_eq attrs target_url w :
  redirected_output attrs target_url w
  = (Ok tt, after_print w (location_line target_url)).
Proof. reflexivity. Qed.

(** A request whose headers are present and whose secret can be read. *)
Lemma main_success w e d a content :
  environ w !! "HTTP_EPPN" = Some e ->
  environ w !! "HTTP_DISPLAYNAME" = Some d ->
  environ w !! "HTTP_AFFILIATION" = Some a ->
  files w !! "./adata" = Some content ->
  main w =
  (Ok tt,
   after_print (after_urandom w SALT_LENGTH)
     (location_line
        ((REDIRECT_TARGET +:+ "?")
         +:+ Bytes.join "&"
               (request_parameters w e d a
                  (default "" (environ w !! "QUERY_STRING"))
                  (Bytes.strip content))))).
Proof.
  intros He Hd Ha Hf. unfold main, bind at 1 2.
  rewrite extract_saml_attrs_eq, He, Hd, Ha.
  set (u := default "" (environ w !! "QUERY_STRING")).
  unfold bind at 1. rewrite add_instance_attrs_eq.
  unfold bind at 1.
  rewrite (add_token_eq _ _ content (fresh_time w) (fresh_salt w) e d a);
    [|exact Hf|unfold saml_dict; by simplify_map_eq..].
  unfold bind at 1, lift at 1.
  set (tok := token_of _ _ _ _ _ _).
  rewrite (encode_attributes_eq _ e d a u (fresh_salt w) tok);
    [|unfold saml_dict; by simplify_map_eq..].
  unfold bind at 1, lift at 1, redirect_url.
  rewrite (query_string_eq _ tok (fresh_time w) (fresh_salt w)
             (Base64.urlsafe_b64encode e) (Base64.urlsafe_b64encode d)
             (Base64.urlsafe_b64encode a) (Base64.urlsafe_b64encode u));
    [|unfold encoded, saml_dict; by simplify_map_eq..].
  reflexivity.
Qed.

Lemma extract_saml_attrs_world {E} (env : E) w :
  snd (extract_saml_attrs env w) = w.
Proof.
  rewrite extract_saml_attrs_eq.
  destruct (environ w !! "HTTP_EPPN"), (environ w !! "HTTP_DISPLAYNAME"),
    (environ w !! "HTTP_AFFILIATION"); reflexivity.
Qed.

Lemma main_missing_header {E} (env : E) w e :
  fst (extract_saml_attrs env w) = Raise e ->
  main w = (Raise e, w).
Proof.
  unfold main, bind at 1 2. rewrite !extract_saml_attrs_eq.
  destruct (environ w !! "HTTP_EPPN"); [|intros [= <-]; reflexivity].
  destruct (environ w !! "HTTP_DISPLAYNAME"); [|intros [= <-]; reflexivity].
  destruct (environ w !! "HTTP_AFFILIATION"); [|intros [= <-]; reflexivity].
  discriminate.
Qed.

Lemma run_failure w e w' :
  main w = (Raise e, w') -> run w = after_report w' e.
Proof. unfold run. intros ->. reflexivity. Qed.

Lemma run_success w w' :
  main w = (Ok tt, w') -> run w = w'.
Proof. unfold run. intros ->. reflexivity. Qed.

Lemma main_unreadable_secret w e d a :
  environ w !! "HTTP_EPPN" = Some e ->
  environ w !! "HTTP_DISPLAYNAME" = Some d ->
  environ w !! "HTTP_AFFILIATION" = Some a ->
  files w !! "./adata" = None ->
  main w = (Raise (IOError "./adata"), after_urandom w SALT_LENGTH).
Proof.
  intros He Hd Ha Hf. unfold main, bind at 1 2.
  rewrite extract_saml_attrs_eq, He, Hd, Ha.
  unfold bind at 1. rewrite add_instance_attrs_eq.
  unfold bind at 1. rewrite add_token_unreadable by exact Hf. reflexivity.
Qed.

Lemma redirects_after_report w e :
  redirects (after_report w e) = redirects w.
Proof.
  unfold redirects, after_report. cbn [stdout].
  rewrite List.filter_app. apply app_nil_r.
Qed.

Lemma redirects_after_urandom w n :
  redirects (after_urandom w n) = redirects w.
Proof. reflexivity. Qed.

Lemma redirects_after_print_location w target_url :
  redirects (after_print w (location_line target_url))
  = redirects w ++ [Printed (location_line target_url)].
Proof.
  unfold redirects, after_print. cbn [stdout].
  rewrite List.filter_app. reflexivity.
Qed.

End ScriptFacts.

(** * The claims of the specification *)

Section Claims.

Implicit Types (attrs : gmap string string) (w : World).

(** C10. [extract_saml_attrs] ignores its parameter: two calls with
    different arguments, of whatever types, in the same process give the
    same result, and that result is decided by [os.environ] alone. *)
Theorem extract_saml_attrs_ignores_env
    {E1 E2 : Type} (env1 : E1) (env2 : E2) w :
  extract_saml_attrs env1 w = extract_saml_attrs env2 w
  /\ forall w', environ w' = environ w ->
       fst (extract_saml_attrs env2 w') = fst (extract_saml_attrs env1 w).
Proof.
  split; [reflexivity|]. intros w' Henv.
  rewrite !extract_saml_attrs_eq, Henv.
  destruct (environ w !! "HTTP_EPPN"), (environ w !! "HTTP_DISPLAYNAME"),
    (environ w !! "HTTP_AFFILIATION"); reflexivity.
Qed.

(** C4. Claim extraction reads four values of the environment. It fails
    if and only if one of [HTTP_EPPN], [HTTP_DISPLAYNAME],
    [HTTP_AFFILIATION] is absent; the failure ends the run where it
    started (nothing drawn, no token, the exception reported and no
    redirect printed). When it succeeds the result holds the three headers
    and the query string, the empty string when there is none. *)
Theorem extract_saml_attrs_required_headers {E : Type} (env : E) w :
  ((exists e, fst (extract_saml_attrs env w) = Raise e)
   <-> (environ w !! "HTTP_EPPN" = None
        \/ environ w !! "HTTP_DISPLAYNAME" = None
        \/ environ w !! "HTTP_AFFILIATION" = None))
  /\ (forall e, fst (extract_saml_attrs env w) = Raise e ->
        extract_saml_attrs env w = (Raise e, w)
        /\ main w = (Raise e, w)
        /\ run w = after_report w e
        /\ redirects (run w) = redirects w)
  /\ (forall e d a,
        environ w !! "HTTP_EPPN" = Some e ->
        environ w !! "HTTP_DISPLAYNAME" = Some d ->
        environ w !! "HTTP_AFFILIATION" = Some a ->
        extract_saml_attrs env w =
        (Ok (saml_dict e d a (default "" (environ w !! "QUERY_STRING"))), w))
  /\ (forall w',
        environ w' !! "HTTP_EPPN" = environ w !! "HTTP_EPPN" ->
        environ w' !! "HTTP_DISPLAYNAME" = environ w !! "HTTP_DISPLAYNAME" ->
        environ w' !! "HTTP_AFFILIATION" = environ w !! "HTTP_AFFILIATION" ->
        environ w' !! "QUERY_STRING" = environ w !! "QUERY_STRING" ->
        fst (extract_saml_attrs env w') = fst (extract_saml_attrs env w)).
Proof.
  repeat split.
  - intros [e He]. rewrite extract_saml_attrs_eq in He.
    destruct (environ w !! "HTTP_EPPN"); [|auto].
    destruct (environ w !! "HTTP_DISPLAYNAME"); [|auto].
    destruct (environ w !! "HTTP_AFFILIATION"); [discriminate|auto].
  - rewrite extract_saml_attrs_eq.
    intros [H | [H | H]]; rewrite H;
      repeat (match goal with |- context [match ?o with _ => _ end] =>
                destruct o end); eauto.
  - rewrite (surjective_pairing (extract_saml_attrs env w)).
    rewrite extract_saml_attrs_world. congruence.
  - eapply main_missing_header; eassumption.
  - eapply run_failure, main_missing_header; eassumption.
  - erewrite run_failure by (eapply main_missing_header; eassumption).
    apply redirects_after_report.
  - intros e d a He Hd Ha. rewrite extract_saml_attrs_eq, He, Hd, Ha.
    reflexivity.
  - intros w' H1 H2 H3 H4. rewrite !extract_saml_attrs_eq, H1, H2, H3, H4.
    destruct (environ w !! "HTTP_EPPN"), (environ w !! "HTTP_DISPLAYNAME"),
      (environ w !! "HTTP_AFFILIATION"); reflexivity.
Qed.

End Claims.
Section ClaimsToken.

Implicit Types (attrs : gmap string string) (w : World).

Lemma sha256_digest_length msg : String.length (SHA256.hash msg) = 32%nat.
Proof.
  unfold SHA256.hash, SHA256.state_bytes, SHA256.word_bytes.
  rewrite !length_append. reflexivity.
Qed.

Lemma token_of_hex t s k e d a :
  Bytes.all Hex.is_lower_hex (token_of t s k e d a) = true
  /\ String.length (token_of t s k e d a) = 64%nat.
Proof.
  unfold token_of. split; [apply hexlify_lower|].
  rewrite hexlify_length, sha256_digest_length. reflexivity.
Qed.

(** C1, as amended. For every attribute map that holds [time], [salt],
    [eppn], [displayName] and [affiliation] and no entry named [secret],
    and every readable secret file, [add_token] stores under [token] the
    lowercase hexadecimal SHA-256 digest (64 digits) of the canonical
    string: the fields [time], [salt], secret, [eppn], [displayName],
    [affiliation] in this order, separated by [" :: "], then the suffix
    [" :: ISLE ROCKS!"]; every other entry and the world are unchanged. The
    token is what [token_of] recomputes from the same ordered fields. *)
Theorem add_token_stores_digest attrs w content t s e d a :
  files w !! "./adata" = Some content ->
  attrs !! "time" = Some t -> attrs !! "salt" = Some s ->
  attrs !! "eppn" = Some e -> attrs !! "displayName" = Some d ->
  attrs !! "affiliation" = Some a ->
  attrs !! "secret" = None ->
  let secret := Bytes.strip content in
  let digest :=
    SHA256.hash
      (t +:+ " :: " +:+ s +:+ " :: " +:+ secret +:+ " :: " +:+ e +:+ " :: "
       +:+ d +:+ " :: " +:+ a +:+ " :: ISLE ROCKS!") in
  add_token attrs w = (Ok (<["token" := Hex.hexlify digest]> attrs), w)
  /\ Hex.hexlify digest = token_of t s secret e d a
  /\ Bytes.all Hex.is_lower_hex (Hex.hexlify digest) = true
  /\ String.length (Hex.hexlify digest) = 64%nat.
Proof.
  intros Hf Ht Hs He Hd Ha Hk secret digest.
  split; [|split; [reflexivity|apply token_of_hex]].
  apply (add_token_eq attrs w content t s e d a); assumption.
Qed.

Lemma add_token_stores_digest_witness :
  add_token sample_attrs sample_world =
  (Ok (<["token" :=
           "6d9194a91d877846804290157c458892a8ce6fdcd4f352f9105b1c5811e73e81"]>
         sample_attrs), sample_world).
Proof.
  refine (eq_trans
    (proj1 (add_token_stores_digest sample_attrs sample_world
              (String (Bytes.chr 32) ("s3cr3t" +:+ CRLF))
              "1700000000.000000" "deadbeef" "jdoe@example.edu" "Jane Doe"
              "staff" _ _ _ _ _ _ _)) _);
    try (vm_compute; reflexivity).
Defined.

(** C1, as stated, fails on a map that holds the five fields and an entry
    named [secret]: the call [pattern.format(secret=secret, **attrs)] gets
    the keyword twice and raises before anything is stored. *)
Lemma add_token_secret_entry_raises :
  let attrs := <["secret" := "mine"]> sample_attrs in
  attrs !! "time" = Some "1700000000.000000"
  /\ attrs !! "salt" = Some "deadbeef"
  /\ attrs !! "eppn" = Some "jdoe@example.edu"
  /\ attrs !! "displayName" = Some "Jane Doe"
  /\ attrs !! "affiliation" = Some "staff"
  /\ add_token attrs sample_world =
     (Raise (TypeError
               "format() got multiple values for keyword argument 'secret'"),
      sample_world).
Proof. vm_compute. repeat split. Qed.

End ClaimsToken.
Section ClaimsEncoding.

Implicit Types (attrs : gmap string string) (w : World).

Lemma redirect_url_eq attrs tok t s e d a u :
  attrs !! "token" = Some tok -> attrs !! "time" = Some t ->
  attrs !! "salt" = Some s -> attrs !! "eppn" = Some e ->
  attrs !! "displayName" = Some d -> attrs !! "affiliation" = Some a ->
  attrs !! "url" = Some u ->
  redirect_url attrs =
  Ok ((REDIRECT_TARGET +:+ "?") +:+ Bytes.join "&" (parameters tok t s e d a u)).
Proof.
  intros. unfold redirect_url.
  rewrite (query_string_eq attrs tok t s e d a u) by assumption. reflexivity.
Qed.

(** C2. For every fully populated attribute map the redirect URL is the
    fixed target, [?], and the seven parameters [token], [time], [salt],
    [eppn], [name], [affil], [url] in this order joined by [&], each with
    the value the map holds. Once the map is encoded, the first three carry
    the values as they were and the last four the URL-safe encodings, none
    of them empty unless its input is. *)
Theorem redirect_url_seven_parameters attrs tok t s e d a u :
  attrs !! "token" = Some tok -> attrs !! "time" = Some t ->
  attrs !! "salt" = Some s -> attrs !! "eppn" = Some e ->
  attrs !! "displayName" = Some d -> attrs !! "affiliation" = Some a ->
  attrs !! "url" = Some u ->
  redirect_url attrs =
  Ok ("https://isle.stat.cmu.edu/#/shibboleth" +:+ "?" +:+
      "token=" +:+ tok +:+ "&" +:+ "time=" +:+ t +:+ "&" +:+
      "salt=" +:+ s +:+ "&" +:+ "eppn=" +:+ e +:+ "&" +:+
      "name=" +:+ d +:+ "&" +:+ "affil=" +:+ a +:+ "&" +:+ "url=" +:+ u)
  /\ exists request_data,
    encode_attributes attrs = Ok request_data
    /\ redirect_url request_data =
       Ok ("https://isle.stat.cmu.edu/#/shibboleth" +:+ "?" +:+
           "token=" +:+ tok +:+ "&" +:+ "time=" +:+ t +:+ "&" +:+
           "salt=" +:+ s +:+ "&" +:+
           "eppn=" +:+ Base64.urlsafe_b64encode e +:+ "&" +:+
           "name=" +:+ Base64.urlsafe_b64encode d +:+ "&" +:+
           "affil=" +:+ Base64.urlsafe_b64encode a +:+ "&" +:+
           "url=" +:+ Base64.urlsafe_b64encode u)
    /\ (e <> "" -> Base64.urlsafe_b64encode e <> "")
    /\ (d <> "" -> Base64.urlsafe_b64encode d <> "")
    /\ (a <> "" -> Base64.urlsafe_b64encode a <> "")
    /\ (u <> "" -> Base64.urlsafe_b64encode u <> "").
Proof.
  intros Htok Ht Hs He Hd Ha Hu. split.
  { rewrite (redirect_url_eq attrs tok t s e d a u) by assumption.
    reflexivity. }
  exists (encoded attrs e d a u).
  split; [apply (encode_attributes_eq attrs e d a u s tok); assumption|].
  split; [|auto using urlsafe_b64encode_nonempty].
  rewrite (redirect_url_eq _ tok t s (Base64.urlsafe_b64encode e)
             (Base64.urlsafe_b64encode d) (Base64.urlsafe_b64encode a)
             (Base64.urlsafe_b64encode u));
    [|unfold encoded; by simplify_map_eq..].
  reflexivity.
Qed.

Lemma redirect_url_seven_parameters_witness :
  exists request_data,
    encode_attributes
      (<["token" := "6d9194a91d877846804290157c458892a8ce6fdcd4f352f9105b1c5811e73e81"]>
         sample_attrs) = Ok request_data
    /\ redirect_url request_data =
       Ok ("https://isle.stat.cmu.edu/#/shibboleth?token=6d9194a91d877846804290157c458892a8ce6fdcd4f352f9105b1c5811e73e81&time=1700000000.000000&salt=deadbeef&eppn=amRvZUBleGFtcGxlLmVkdQ==&name=SmFuZSBEb2U=&affil=c3RhZmY=&url=YT0xJmI9Mg==").
Proof.
  destruct (redirect_url_seven_parameters
              (<["token" := "6d9194a91d877846804290157c458892a8ce6fdcd4f352f9105b1c5811e73e81"]>
                 sample_attrs)
              "6d9194a91d877846804290157c458892a8ce6fdcd4f352f9105b1c5811e73e81"
              "1700000000.000000" "deadbeef" "jdoe@example.edu" "Jane Doe"
              "staff" "a=1&b=2")
    as (_ & request_data & Henc & Hurl & _); try (vm_compute; reflexivity).
  exists request_data. split; [exact Henc|]. rewrite Hurl.
  vm_compute. reflexivity.
Defined.

(** C3. [encode_attributes] replaces [eppn], [displayName],
    [affiliation] and [url] by their URL-safe base64 encodings and leaves
    every other entry, [salt], [token] and [time] among them, as it was.
    The encoding uses the alphabet with [-] and [_], keeps its [=]
    padding (its length is four bytes for every three of the value, the
    last group complete or not), and decodes back to the value. *)
Theorem encode_attributes_urlsafe_roundtrip attrs e d a u s tok :
  attrs !! "eppn" = Some e -> attrs !! "displayName" = Some d ->
  attrs !! "affiliation" = Some a -> attrs !! "url" = Some u ->
  attrs !! "salt" = Some s -> attrs !! "token" = Some tok ->
  (exists request_data,
     encode_attributes attrs = Ok request_data
     /\ request_data !! "eppn" = Some (Base64.urlsafe_b64encode e)
     /\ request_data !! "displayName" = Some (Base64.urlsafe_b64encode d)
     /\ request_data !! "affiliation" = Some (Base64.urlsafe_b64encode a)
     /\ request_data !! "url" = Some (Base64.urlsafe_b64encode u)
     /\ request_data !! "salt" = Some s
     /\ request_data !! "token" = Some tok
     /\ request_data !! "time" = attrs !! "time"
     /\ (forall k, k <> "eppn" -> k <> "displayName" -> k <> "affiliation" ->
           k <> "url" -> request_data !! k = attrs !! k))
  /\ (forall v : string,
        Bytes.all Base64.is_urlsafe (Base64.urlsafe_b64encode v) = true
        /\ String.length (Base64.urlsafe_b64encode v)
           = (4 * ((String.length v + 2) / 3))%nat
        /\ Base64.urlsafe_b64decode (Base64.urlsafe_b64encode v) = Ok v).
Proof.
  intros He Hd Ha Hu Hs Htok. split.
  - exists (encoded attrs e d a u).
    split; [apply (encode_attributes_eq attrs e d a u s tok); assumption|].
    unfold encoded. repeat split; try by simplify_map_eq.
    intros k ? ? ? ?. by rewrite !lookup_insert_ne.
  - intros v. split; [apply urlsafe_b64encode_alphabet|].
    split; [apply urlsafe_b64encode_length|apply urlsafe_b64_roundtrip].
Qed.

Lemma encode_attributes_urlsafe_roundtrip_witness :
  encode_attributes (<["token" := "00ff"]> sample_attrs) =
  Ok (<["eppn" := "amRvZUBleGFtcGxlLmVkdQ=="]>
        (<["displayName" := "SmFuZSBEb2U="]>
           (<["affiliation" := "c3RhZmY="]>
              (<["url" := "YT0xJmI9Mg=="]>
                 (<["token" := "00ff"]> sample_attrs)))))
  /\ Base64.urlsafe_b64decode "YT0xJmI9Mg==" = Ok "a=1&b=2".
Proof.
  destruct (encode_attributes_urlsafe_roundtrip
              (<["token" := "00ff"]> sample_attrs)
              "jdoe@example.edu" "Jane Doe" "staff" "a=1&b=2" "deadbeef" "00ff")
    as [(request_data & Henc & _) Hrt]; try (vm_compute; reflexivity).
  split.
  - vm_compute. reflexivity.
  - exact (proj2 (proj2 (Hrt "a=1&b=2"))).
Defined.

End ClaimsEncoding.
Section ClaimsSecret.

Implicit Types (attrs : gmap string string) (w : World).

Lemma lstrip_spec s :
  exists pre, s = pre +:+ Bytes.lstrip s
    /\ Bytes.all Bytes.isspace pre = true
    /\ Bytes.is_space_opt (Bytes.first (Bytes.lstrip s)) = false.
Proof.
  induction s as [|c s (pre & Heq & Hpre & Hfirst)].
  - exists "". auto.
  - cbn [Bytes.lstrip]. destruct (Bytes.isspace c) eqn:Hc.
    + exists (String c pre). rewrite append_cons, <- Heq. cbn [Bytes.all].
      rewrite Hc, Hpre. auto.
    + exists "". cbn [Bytes.first Bytes.is_space_opt]. auto.
Qed.

Lemma rstrip_spec s :
  exists post, s = Bytes.rstrip s +:+ post
    /\ Bytes.all Bytes.isspace post = true
    /\ Bytes.is_space_opt (Bytes.last (Bytes.rstrip s)) = false
    /\ (Bytes.is_space_opt (Bytes.first s) = false ->
        Bytes.first (Bytes.rstrip s) = Bytes.first s).
Proof.
  induction s as [|c s (post & Heq & Hpost & Hlast & _)].
  - exists "". auto.
  - cbn [Bytes.rstrip]. destruct (Bytes.rstrip s) as [|c' r'] eqn:Hr.
    + destruct (Bytes.isspace c) eqn:Hc.
      * exists (String c post). rewrite append_nil_l in *. subst s.
        cbn [Bytes.all Bytes.first Bytes.is_space_opt]. rewrite Hc, Hpost.
        repeat split; congruence.
      * exists post. rewrite append_cons, <- Heq.
        cbn [Bytes.last Bytes.first Bytes.is_space_opt]. auto.
    + exists post. rewrite append_cons, <- Heq.
      cbn [Bytes.first]. repeat split; auto.
Qed.

(** [strip] removes the whitespace around a string and nothing else. *)
Lemma strip_spec s :
  exists pre post,
    s = pre +:+ Bytes.strip s +:+ post
    /\ Bytes.all Bytes.isspace pre = true
    /\ Bytes.all Bytes.isspace post = true
    /\ Bytes.is_space_opt (Bytes.first (Bytes.strip s)) = false
    /\ Bytes.is_space_opt (Bytes.last (Bytes.strip s)) = false.
Proof.
  destruct (lstrip_spec s) as (pre & Heq & Hpre & Hfirst).
  destruct (rstrip_spec (Bytes.lstrip s)) as (post & Heq' & Hpost & Hlast & Hkeep).
  exists pre, post. unfold Bytes.strip.
  rewrite <- Heq', <- Heq, (Hkeep Hfirst). auto.
Qed.

(** Whatever goes wrong, a run that fails prints no redirect. *)
Lemma run_unreadable_secret w :
  files w !! "./adata" = None ->
  (exists e w', main w = (Raise e, w') /\ run w = after_report w' e)
  /\ redirects (run w) = redirects w.
Proof.
  intros Hf.
  destruct (environ w !! "HTTP_EPPN") as [e|] eqn:He;
    [destruct (environ w !! "HTTP_DISPLAYNAME") as [d|] eqn:Hd;
     [destruct (environ w !! "HTTP_AFFILIATION") as [a|] eqn:Ha|]|].
  - pose proof (main_unreadable_secret w e d a He Hd Ha Hf) as Hm.
    split; [eauto using run_failure|].
    rewrite (run_failure _ _ _ Hm), redirects_after_report. reflexivity.
  - assert (main w = (Raise (KeyError "HTTP_AFFILIATION"), w)) as Hm.
    { apply (main_missing_header (environ w)).
      rewrite extract_saml_attrs_eq, He, Hd, Ha. reflexivity. }
    split; [eauto using run_failure|].
    rewrite (run_failure _ _ _ Hm). apply redirects_after_report.
  - assert (main w = (Raise (KeyError "HTTP_DISPLAYNAME"), w)) as Hm.
    { apply (main_missing_header (environ w)).
      rewrite extract_saml_attrs_eq, He, Hd. reflexivity. }
    split; [eauto using run_failure|].
    rewrite (run_failure _ _ _ Hm). apply redirects_after_report.
  - assert (main w = (Raise (KeyError "HTTP_EPPN"), w)) as Hm.
    { apply (main_missing_header (environ w)).
      rewrite extract_saml_attrs_eq, He. reflexivity. }
    split; [eauto using run_failure|].
    rewrite (run_failure _ _ _ Hm). apply redirects_after_report.
Qed.

(** C5, as amended. [read_secret] reads the whole file [adata] of the
    resource directory and returns it without the whitespace around it.
    It fails if and only if the file cannot be read; then no token is
    computed, whatever the attributes, and the run prints no redirect. A
    secret that is empty is returned like any other. *)
Theorem read_secret_strips_or_fails w :
  (forall content,
     files w !! (RESOURCE_DIR +:+ "adata") = Some content ->
     read_secret w = (Ok (Bytes.strip content), w)
     /\ exists pre post,
          content = pre +:+ Bytes.strip content +:+ post
          /\ Bytes.all Bytes.isspace pre = true
          /\ Bytes.all Bytes.isspace post = true
          /\ Bytes.is_space_opt (Bytes.first (Bytes.strip content)) = false
          /\ Bytes.is_space_opt (Bytes.last (Bytes.strip content)) = false)
  /\ (files w !! (RESOURCE_DIR +:+ "adata") = None ->
      read_secret w = (Raise (IOError "./adata"), w)
      /\ (forall attrs, add_token attrs w = (Raise (IOError "./adata"), w))
      /\ (exists e w', main w = (Raise e, w') /\ run w = after_report w' e)
      /\ redirects (run w) = redirects w).
Proof.
  change (RESOURCE_DIR +:+ "adata") with "./adata". split.
  - intros content Hf. rewrite read_secret_eq, Hf.
    split; [reflexivity|apply strip_spec].
  - intros Hf. rewrite read_secret_eq, Hf. split; [reflexivity|].
    split; [intros attrs; apply add_token_unreadable, Hf|].
    apply run_unreadable_secret, Hf.
Qed.

(** C5, as stated, fails on a secret file that holds only whitespace: the
    secret is empty, and the run computes a token and prints its
    redirect. *)
Lemma empty_secret_still_redirects :
  fst (read_secret sample_world_empty_secret) = Ok ""
  /\ redirects (run sample_world_empty_secret) =
     [Printed
        (location_line
           "https://isle.stat.cmu.edu/#/shibboleth?token=baa96252c07b7414852d6c5de57e0ebf0f4a347451f654d93058561059ed7309&time=1700000000.000000&salt=deadbeef&eppn=amRvZUBleGFtcGxlLmVkdQ==&name=SmFuZSBEb2U=&affil=c3RhZmY=&url=YT0xJmI9Mg==")].
Proof. vm_compute. split; reflexivity. Qed.

End ClaimsSecret.
Section ClaimsInstance.

Implicit Types (attrs : gmap string string) (w : World).




End ClaimsInstance.
Section ClaimsSecrecy.

Implicit Types (attrs : gmap string string) (w : World).

Lemma add_token_result attrs w attrs' w' :
  add_token attrs w = (Ok attrs', w') ->
  exists token, attrs' = <["token" := token]> attrs.
Proof.
  unfold add_token, bind, lift, ret.
  destruct (read_secret w) as [[secret|] ?]; [|discriminate].
  destruct (PyFormat.call_kwargs "secret" secret attrs); [|discriminate].
  destruct (PyFormat.format token_pattern [] _); [|discriminate].
  cbv zeta beta.
  match goal with
  | |- context [<["token" := ?t]> attrs] => generalize t
  end.
  intros token [= <- _]. exists token. reflexivity.
Qed.

Lemma encode_attributes_result attrs attrs' :
  encode_attributes attrs = Ok attrs' ->
  forall k, k <> "eppn" -> k <> "displayName" -> k <> "affiliation" ->
    k <> "url" -> attrs' !! k = attrs !! k.
Proof.
  unfold encode_attributes, result_bind, getitem.
  repeat (match goal with
          | |- context [match ?m !! ?k with _ => _ end] =>
              destruct (m !! k) eqn:?; [|discriminate]
          end).
  intros [= <-] k ? ? ? ?.
  destruct (decide (k = "salt")) as [->|];
    [by simplify_map_eq|].
  destruct (decide (k = "token")) as [->|];
    [by simplify_map_eq|].
  by rewrite !lookup_insert_ne.
Qed.

(** The query string is read off seven entries of the map. *)
Lemma query_string_reads_seven (m1 m2 : gmap string string) :
  m1 !! "token" = m2 !! "token" -> m1 !! "time" = m2 !! "time" ->
  m1 !! "salt" = m2 !! "salt" -> m1 !! "eppn" = m2 !! "eppn" ->
  m1 !! "displayName" = m2 !! "displayName" ->
  m1 !! "affiliation" = m2 !! "affiliation" -> m1 !! "url" = m2 !! "url" ->
  query_string m1 = query_string m2.
Proof.
  intros H1 H2 H3 H4 H5 H6 H7.
  unfold query_string, PyFormat.format, query_pattern. simpl.
  rewrite H1, H2, H3, H4, H5, H6, H7. reflexivity.
Qed.

(** Every run ends in one of three ways. *)
Lemma run_cases w :
  (exists k, run w = after_report w (KeyError k))
  \/ run w = after_report (after_urandom w SALT_LENGTH) (IOError "./adata")
  \/ (exists e d a k,
        environ w !! "HTTP_EPPN" = Some e
        /\ environ w !! "HTTP_DISPLAYNAME" = Some d
        /\ environ w !! "HTTP_AFFILIATION" = Some a
        /\ secret_of w = Some k
        /\ run w =
           after_print (after_urandom w SALT_LENGTH)
             (location_line
                ((REDIRECT_TARGET +:+ "?")
                 +:+ Bytes.join "&"
                       (request_parameters w e d a
                          (default "" (environ w !! "QUERY_STRING")) k)))).
Proof.
  destruct (environ w !! "HTTP_EPPN") as [e|] eqn:He;
    [destruct (environ w !! "HTTP_DISPLAYNAME") as [d|] eqn:Hd;
     [destruct (environ w !! "HTTP_AFFILIATION") as [a|] eqn:Ha|]|].
  - destruct (files w !! "./adata") as [content|] eqn:Hf.
    + right. right. exists e, d, a, (Bytes.strip content).
      unfold secret_of. rewrite Hf.
      repeat split; try reflexivity.
      apply run_success, main_success; assumption.
    + right. left. apply run_failure, (main_unreadable_secret w e d a);
        assumption.
  - left. exists "HTTP_AFFILIATION".
    apply run_failure, (main_missing_header (environ w)).
    rewrite extract_saml_attrs_eq, He, Hd, Ha. reflexivity.
  - left. exists "HTTP_DISPLAYNAME".
    apply run_failure, (main_missing_header (environ w)).
    rewrite extract_saml_attrs_eq, He, Hd. reflexivity.
  - left. exists "HTTP_EPPN".
    apply run_failure, (main_missing_header (environ w)).
    rewrite extract_saml_attrs_eq, He. reflexivity.
Qed.

(** C8. The attribute map holds no entry named [secret] at any stage:
    not when claim extraction builds it, and none of [add_instance_attrs],
    [add_token] and [encode_attributes] adds one. The query string is read
    off the seven entries [token], [time], [salt], [eppn], [displayName],
    [affiliation], [url] and nothing else, and every run prints either the
    report of an exception that carries no secret, or the redirect whose
    parameters are the token, the time, the salt and the four encoded
    claims: the secret enters the output through the digest only. *)
Theorem secret_never_in_attrs_or_url :
  (forall (E : Type) (env : E) w attrs w',
     extract_saml_attrs env w = (Ok attrs, w') -> no_secret attrs)
  /\ (forall attrs w attrs' w',
        no_secret attrs ->
        add_instance_attrs attrs w = (Ok attrs', w') -> no_secret attrs')
  /\ (forall attrs w attrs' w',
        no_secret attrs ->
        add_token attrs w = (Ok attrs', w') -> no_secret attrs')
  /\ (forall attrs attrs',
        no_secret attrs ->
        encode_attributes attrs = Ok attrs' -> no_secret attrs')
  /\ (forall m1 m2 : gmap string string,
        m1 !! "token" = m2 !! "token" -> m1 !! "time" = m2 !! "time" ->
        m1 !! "salt" = m2 !! "salt" -> m1 !! "eppn" = m2 !! "eppn" ->
        m1 !! "displayName" = m2 !! "displayName" ->
        m1 !! "affiliation" = m2 !! "affiliation" ->
        m1 !! "url" = m2 !! "url" ->
        query_string m1 = query_string m2
        /\ redirect_url m1 = redirect_url m2)
  /\ (forall w,
        (exists k, run w = after_report w (KeyError k))
        \/ run w = after_report (after_urandom w SALT_LENGTH) (IOError "./adata")
        \/ (exists e d a k,
              environ w !! "HTTP_EPPN" = Some e
              /\ environ w !! "HTTP_DISPLAYNAME" = Some d
              /\ environ w !! "HTTP_AFFILIATION" = Some a
              /\ secret_of w = Some k
              /\ run w =
                 after_print (after_urandom w SALT_LENGTH)
                   (location_line
                      ("https://isle.stat.cmu.edu/#/shibboleth?"
                       +:+ Bytes.join "&"
                             ["token=" +:+ token_of (fresh_time w) (fresh_salt w) k e d a;
                              "time=" +:+ fresh_time w;
                              "salt=" +:+ fresh_salt w;
                              "eppn=" +:+ Base64.urlsafe_b64encode e;
                              "name=" +:+ Base64.urlsafe_b64encode d;
                              "affil=" +:+ Base64.urlsafe_b64encode a;
                              "url=" +:+ Base64.urlsafe_b64encode
                                           (default "" (environ w !! "QUERY_STRING"))])))).
Proof.
  unfold no_secret. repeat split.
  - intros E env w attrs w'. rewrite extract_saml_attrs_eq.
    destruct (environ w !! "HTTP_EPPN"); [|discriminate].
    destruct (environ w !! "HTTP_DISPLAYNAME"); [|discriminate].
    destruct (environ w !! "HTTP_AFFILIATION"); [|discriminate].
    intros [= <- _]. reflexivity.
  - intros attrs w attrs' w' Hk. rewrite add_instance_attrs_eq.
    intros [= <- _]. by rewrite !lookup_insert_ne.
  - intros attrs w attrs' w' Hk [token ->]%add_token_result.
    by rewrite lookup_insert_ne.
  - intros attrs attrs' Hk Henc.
    rewrite (encode_attributes_result _ _ Henc) by discriminate. exact Hk.
  - apply query_string_reads_seven; assumption.
  - unfold redirect_url. f_equal. apply query_string_reads_seven; assumption.
  - apply run_cases.
Qed.

End ClaimsSecrecy.
Section ClaimsQuery.

Implicit Types (attrs : gmap string string) (w : World).

Lemma no_amp_parameter (key value : string) (q : ascii -> bool) :
  Bytes.mem "&" key = false -> q "&"%char = false ->
  Bytes.all q value = true ->
  Bytes.mem "&" (key +:+ value) = false.
Proof.
  intros Hkey Hq Hall. rewrite mem_app, Hkey.
  apply (all_not_mem q); assumption.
Qed.

(** C9. Whatever bytes the claims and the continuation hold, their four
    encodings consist of bytes of the URL-safe alphabet, the token and
    the salt of lowercase hexadecimal digits, and the time of the bytes of
    a rendered float (digits and a dot when the clock reads a time after
    the epoch). So the query string the run puts in its redirect splits on
    [&] into exactly the seven components [token=], [time=], [salt=],
    [eppn=], [name=], [affil=], [url=] with their values. *)
Theorem query_string_splits_into_seven w e d a content :
  environ w !! "HTTP_EPPN" = Some e ->
  environ w !! "HTTP_DISPLAYNAME" = Some d ->
  environ w !! "HTTP_AFFILIATION" = Some a ->
  files w !! "./adata" = Some content ->
  let u := default "" (environ w !! "QUERY_STRING") in
  let time := PyFloat.format_f (clock w) in
  let salt := Hex.hexlify (stream_bytes (entropy w) (drawn w) SALT_LENGTH) in
  let token := token_of time salt (Bytes.strip content) e d a in
  exists query,
    run w =
    after_print (after_urandom w SALT_LENGTH)
      (location_line ("https://isle.stat.cmu.edu/#/shibboleth?" +:+ query))
    /\ Bytes.split "&" query =
       ["token=" +:+ token; "time=" +:+ time; "salt=" +:+ salt;
        "eppn=" +:+ Base64.urlsafe_b64encode e;
        "name=" +:+ Base64.urlsafe_b64encode d;
        "affil=" +:+ Base64.urlsafe_b64encode a;
        "url=" +:+ Base64.urlsafe_b64encode u]
    /\ Bytes.all Base64.is_urlsafe (Base64.urlsafe_b64encode e) = true
    /\ Bytes.all Base64.is_urlsafe (Base64.urlsafe_b64encode d) = true
    /\ Bytes.all Base64.is_urlsafe (Base64.urlsafe_b64encode a) = true
    /\ Bytes.all Base64.is_urlsafe (Base64.urlsafe_b64encode u) = true
    /\ Bytes.all Hex.is_lower_hex token = true
    /\ Bytes.all Hex.is_lower_hex salt = true
    /\ Bytes.all PyFloat.is_float_char time = true
    /\ (PyFloat.is_timestamp (clock w) = true ->
        Bytes.all PyFloat.is_decimal_char time = true).
Proof.
  intros He Hd Ha Hf u time salt token.
  exists (Bytes.join "&" (request_parameters w e d a u (Bytes.strip content))).
  split.
  { apply run_success. rewrite (main_success w e d a content) by assumption.
    reflexivity. }
  split.
  { apply (split_join "&"); [discriminate|].
    unfold request_parameters, parameters.
    repeat apply Forall_cons_2; try apply Forall_nil_2.
    - apply (no_amp_parameter _ _ Hex.is_lower_hex); try reflexivity.
      apply token_of_hex.
    - apply (no_amp_parameter _ _ PyFloat.is_float_char); try reflexivity.
      apply format_f_chars.
    - apply (no_amp_parameter _ _ Hex.is_lower_hex); try reflexivity.
      apply hexlify_lower.
    - apply (no_amp_parameter _ _ Base64.is_urlsafe); try reflexivity.
      apply urlsafe_b64encode_alphabet.
    - apply (no_amp_parameter _ _ Base64.is_urlsafe); try reflexivity.
      apply urlsafe_b64encode_alphabet.
    - apply (no_amp_parameter _ _ Base64.is_urlsafe); try reflexivity.
      apply urlsafe_b64encode_alphabet.
    - apply (no_amp_parameter _ _ Base64.is_urlsafe); try reflexivity.
      apply urlsafe_b64encode_alphabet. }
  repeat split; try apply urlsafe_b64encode_alphabet.
  - apply token_of_hex.
  - apply hexlify_lower.
  - apply format_f_chars.
  - apply format_f_timestamp.
Qed.

Lemma query_string_splits_into_seven_witness :
  exists query,
    stdout (run sample_world) =
    [Printed (location_line ("https://isle.stat.cmu.edu/#/shibboleth?" +:+ query))]
    /\ Bytes.split "&" query =
       ["token=6d9194a91d877846804290157c458892a8ce6fdcd4f352f9105b1c5811e73e81";
        "time=1700000000.000000"; "salt=deadbeef";
        "eppn=amRvZUBleGFtcGxlLmVkdQ=="; "name=SmFuZSBEb2U=";
        "affil=c3RhZmY="; "url=YT0xJmI9Mg=="].
Proof.
  destruct (query_string_splits_into_seven sample_world
              "jdoe@example.edu" "Jane Doe" "staff"
              (String (Bytes.chr 32) ("s3cr3t" +:+ CRLF)))
    as (query & Hrun & Hsplit & _); try (vm_compute; reflexivity).
  exists query. split.
  - rewrite Hrun. reflexivity.
  - rewrite Hsplit. vm_compute. reflexivity.
Defined.

End ClaimsQuery.
(** * Beyond the claims *)

Section Replay.

(** Cutting two strings at a separator that neither head contains. *)
Lemma append_sep_inj c (a b r r' : string) :
  Bytes.mem c a = false -> Bytes.mem c b = false ->
  a +:+ String c r = b +:+ String c r' -> a = b /\ r = r'.
Proof.
  revert b. induction a as [|x a IH]; intros [|y b] Ha Hb;
    rewrite ?append_nil_l, ?append_cons; intros Heq.
  - injection Heq as ->. auto.
  - injection Heq as <- _. cbn in Hb. unfold Bytes.eqb in Hb.
    rewrite Ascii.eqb_refl in Hb. discriminate.
  - injection Heq as -> _. cbn in Ha. unfold Bytes.eqb in Ha.
    rewrite Ascii.eqb_refl in Ha. discriminate.
  - injection Heq as -> Heq. cbn in Ha, Hb.
    apply orb_false_elim in Ha as [_ Ha].
    apply orb_false_elim in Hb as [_ Hb].
    destruct (IH b Ha Hb Heq) as [-> ->]. auto.
Qed.

Lemma append_length_inj (a b r r' : string) :
  String.length a = String.length b ->
  a +:+ r = b +:+ r' -> a = b /\ r = r'.
Proof.
  revert b. induction a as [|x a IH]; intros [|y b]; cbn [String.length];
    try discriminate; rewrite ?append_nil_l, ?append_cons.
  - auto.
  - intros [= Hlen] [= -> H]. destruct (IH b Hlen H) as [-> ->]. auto.
Qed.

Lemma format_f_no_space x : Bytes.mem " " (PyFloat.format_f x) = false.
Proof.
  apply (all_not_mem PyFloat.is_float_char); [reflexivity|].
  apply format_f_chars.
Qed.

(** X1. Two requests for the same claims and secret whose times or salts
    differ have different canonical strings; their tokens can only agree
    if SHA-256 takes the same value on the two strings. *)
Theorem fresh_pair_fresh_canonical x1 x2 r1 r2 k e d a :
  String.length r1 = SALT_LENGTH -> String.length r2 = SALT_LENGTH ->
  let t1 := PyFloat.format_f x1 in
  let t2 := PyFloat.format_f x2 in
  let s1 := Hex.hexlify r1 in
  let s2 := Hex.hexlify r2 in
  (t1, s1) <> (t2, s2) ->
  canonical t1 s1 k e d a <> canonical t2 s2 k e d a
  /\ (token_of t1 s1 k e d a = token_of t2 s2 k e d a ->
      SHA256.hash (canonical t1 s1 k e d a)
      = SHA256.hash (canonical t2 s2 k e d a)).
Proof.
  intros Hr1 Hr2 t1 t2 s1 s2 Hne. split.
  - intros Heq. apply Hne. unfold canonical in Heq.
    change (" :: " +:+ ?r) with (String " " (":: " +:+ r)) in Heq.
    apply append_sep_inj in Heq as [Ht Heq]; try apply format_f_no_space.
    apply (f_equal (fun s => match s with String _ (String _ (String _ r)) => r
                             | _ => s end)) in Heq.
    cbv beta iota in Heq.
    change (":: " +:+ ?r) with (String ":" (String ":" (String " " r))) in Heq.
    cbv beta iota in Heq.
    apply append_length_inj in Heq as [Hs _].
    + congruence.
    + unfold s1, s2. rewrite !hexlify_length. congruence.
  - unfold token_of. apply hexlify_inj.
Qed.

End Replay.

Lemma fresh_pair_fresh_canonical_witness :
  canonical "1700000000.000000" "deadbeef" "s3cr3t" "jdoe@example.edu"
    "Jane Doe" "staff"
  <> canonical "1700000001.000000" "deadbeef" "s3cr3t" "jdoe@example.edu"
       "Jane Doe" "staff".
Proof.
  refine (proj1 (fresh_pair_fresh_canonical
                   (S754_finite false 1700000000 0)
                   (S754_finite false 1700000001 0)
                   (fresh_bytes sample_world) (fresh_bytes sample_world)
                   "s3cr3t" "jdoe@example.edu" "Jane Doe" "staff" _ _ _));
    [reflexivity | reflexivity |].
  intros H. vm_compute in H. discriminate H.
Defined.

Section ExtraToken.

Implicit Types (attrs : gmap string string) (w : World).

(** [pattern.format] on the token pattern, field by field. *)
Lemma format_token_pattern_cases (kw : gmap string string) :
  PyFormat.format token_pattern [] kw =
  match kw !! "time" with
  | None => Raise (KeyError "time")
  | Some t =>
  match kw !! "salt" with
  | None => Raise (KeyError "salt")
  | Some s =>
  match kw !! "secret" with
  | None => Raise (KeyError "secret")
  | Some k =>
  match kw !! "eppn" with
  | None => Raise (KeyError "eppn")
  | Some e =>
  match kw !! "displayName" with
  | None => Raise (KeyError "displayName")
  | Some d =>
  match kw !! "affiliation" with
  | None => Raise (KeyError "affiliation")
  | Some a => Ok (canonical t s k e d a)
  end end end end end end.
Proof.
  unfold PyFormat.format, token_pattern. simpl.
  destruct (kw !! "time"); [|reflexivity].
  destruct (kw !! "salt"); [|reflexivity].
  destruct (kw !! "secret"); [|reflexivity].
  destruct (kw !! "eppn"); [|reflexivity].
  destruct (kw !! "displayName"); [|reflexivity].
  destruct (kw !! "affiliation"); reflexivity.
Qed.

Lemma add_token_cases attrs w :
  add_token attrs w =
  match files w !! "./adata" with
  | None => (Raise (IOError "./adata"), w)
  | Some content =>
      match attrs !! "secret" with
      | Some _ => (Raise multiple_values, w)
      | None =>
          match attrs !! "time" with
          | None => (Raise (KeyError "time"), w)
          | Some t =>
          match attrs !! "salt" with
          | None => (Raise (KeyError "salt"), w)
          | Some s =>
          match attrs !! "eppn" with
          | None => (Raise (KeyError "eppn"), w)
          | Some e =>
          match attrs !! "displayName" with
          | None => (Raise (KeyError "displayName"), w)
          | Some d =>
          match attrs !! "affiliation" with
          | None => (Raise (KeyError "affiliation"), w)
          | Some a =>
              (Ok (<["token" := token_of t s (Bytes.strip content) e d a]> attrs), w)
          end end end end end
      end
  end.
Proof.
  destruct (files w !! "./adata") as [content|] eqn:Hf;
    [|apply add_token_unreadable, Hf].
  destruct (attrs !! "secret") as [v|] eqn:Hk.
  { unfold add_token, bind. rewrite read_secret_eq, Hf.
    unfold lift, PyFormat.call_kwargs. rewrite Hk. reflexivity. }
  destruct (attrs !! "time") as [t|] eqn:Ht;
    [destruct (attrs !! "salt") as [s|] eqn:Hs;
     [destruct (attrs !! "eppn") as [e|] eqn:He;
      [destruct (attrs !! "displayName") as [d|] eqn:Hd;
       [destruct (attrs !! "affiliation") as [a|] eqn:Ha|]|]|]|];
    [apply (add_token_eq attrs w content t s e d a); assumption|..];
    unfold add_token, bind; rewrite read_secret_eq, Hf;
    unfold lift, PyFormat.call_kwargs; rewrite Hk;
    rewrite format_token_pattern_cases;
    rewrite ?lookup_insert_eq, ?lookup_insert_ne by discriminate;
    rewrite ?Ht, ?Hs, ?He, ?Hd, ?Ha; reflexivity.
Qed.

(** X2. [add_token] fails in a fixed order: the secret is read before the
    attributes are looked at, an entry named [secret] is refused before any
    field is looked up, and the fields are looked up in the order of the
    pattern, so the [KeyError] names the first of [time], [salt], [eppn],
    [displayName], [affiliation] that is absent. It succeeds exactly when
    none of this happens, and it never changes the world. *)
Theorem add_token_failure_order attrs w :
  (files w !! "./adata" = None ->
   fst (add_token attrs w) = Raise (IOError "./adata"))
  /\ (is_Some (files w !! "./adata") -> is_Some (attrs !! "secret") ->
      fst (add_token attrs w) = Raise multiple_values)
  /\ (forall k,
        is_Some (files w !! "./adata") -> attrs !! "secret" = None ->
        first_absent attrs token_fields = Some k ->
        fst (add_token attrs w) = Raise (KeyError k))
  /\ ((exists attrs', fst (add_token attrs w) = Ok attrs')
      <-> is_Some (files w !! "./adata") /\ attrs !! "secret" = None
          /\ first_absent attrs token_fields = None)
  /\ snd (add_token attrs w) = w.
Proof.
  rewrite add_token_cases. unfold token_fields. cbn [first_absent].
  split; [intros ->; reflexivity|].
  split; [intros [c ->] [v ->]; reflexivity|].
  split.
  { intros k [c ->] ->.
    destruct (attrs !! "time"), (attrs !! "salt"), (attrs !! "eppn"),
      (attrs !! "displayName"), (attrs !! "affiliation");
      intros [= <-]; reflexivity. }
  split.
  { destruct (files w !! "./adata") as [c|].
    2: { split; [intros [? [=]]|intros [[? [=]] _]]. }
    destruct (attrs !! "secret") as [v|].
    { split; [intros [? [=]]|intros (_ & [=] & _)]. }
    destruct (attrs !! "time"), (attrs !! "salt"), (attrs !! "eppn"),
      (attrs !! "displayName"), (attrs !! "affiliation");
      first [ solve [split; [intros [? [=]]|intros (_ & _ & [=])]]
            | split; [intros _; split; [eexists; reflexivity|split; reflexivity]
                     |intros _; eexists; reflexivity] ]. }
  destruct (files w !! "./adata"), (attrs !! "secret"), (attrs !! "time"),
    (attrs !! "salt"), (attrs !! "eppn"), (attrs !! "displayName"),
    (attrs !! "affiliation"); reflexivity.
Qed.

End ExtraToken.

Section ExtraTokenScope.

Implicit Types (attrs : gmap string string) (w : World).

(** X3. The token covers [time], [salt], [eppn], [displayName], [affiliation]
    and the secret, and nothing else: on two attribute maps that agree on
    these five entries and on the entry [secret], [add_token] stores the
    same token, or raises the same exception, whatever their [url] or any
    other entry holds. *)
Theorem token_covers_five_fields_only attrs1 attrs2 w :
  attrs1 !! "secret" = attrs2 !! "secret" ->
  Forall (fun f => attrs1 !! f = attrs2 !! f) token_fields ->
  result_map (fun m : gmap string string => m !! "token")
    (fst (add_token attrs1 w))
  = result_map (fun m : gmap string string => m !! "token")
      (fst (add_token attrs2 w)).
Proof.
  intros Hk Hall. unfold token_fields in Hall.
  repeat (apply Forall_cons in Hall as [? Hall]).
  rewrite !add_token_cases.
  repeat match goal with
         | H : attrs1 !! _ = attrs2 !! _ |- _ => rewrite <- H; clear H
         end.
  destruct (files w !! "./adata"); [|reflexivity].
  destruct (attrs1 !! "secret"); [reflexivity|].
  destruct (attrs1 !! "time"), (attrs1 !! "salt"), (attrs1 !! "eppn"),
    (attrs1 !! "displayName"), (attrs1 !! "affiliation"); try reflexivity.
  cbn [fst result_map]. rewrite !lookup_insert_eq. reflexivity.
Qed.

End ExtraTokenScope.

Lemma token_covers_five_fields_only_witness :
  result_map (fun m : gmap string string => m !! "token")
    (fst (add_token sample_attrs sample_world))
  = result_map (fun m : gmap string string => m !! "token")
      (fst (add_token (<["url" := "elsewhere"]> sample_attrs) sample_world)).
Proof.
  apply token_covers_five_fields_only; [reflexivity|].
  repeat constructor.
Defined.

Section ExtraBoundaries.

Implicit Types (attrs : gmap string string) (w : World).

(** X4. The canonical string does not mark where a field ends: a piece of
    text moved, with the separator, from the end of [eppn] to the start of
    [displayName] gives the same canonical string, hence the same token. *)
Theorem token_blind_to_field_boundaries attrs w (e x d : string) :
  let attrs1 :=
    <["displayName" := d]> (<["eppn" := e +:+ " :: " +:+ x]> attrs) in
  let attrs2 :=
    <["displayName" := x +:+ " :: " +:+ d]> (<["eppn" := e]> attrs) in
  (forall t s k a,
     canonical t s k (e +:+ " :: " +:+ x) d a
     = canonical t s k e (x +:+ " :: " +:+ d) a)
  /\ result_map (fun m : gmap string string => m !! "token")
       (fst (add_token attrs1 w))
     = result_map (fun m : gmap string string => m !! "token")
         (fst (add_token attrs2 w)).
Proof.
  intros attrs1 attrs2.
  assert (forall t s k a,
            canonical t s k (e +:+ " :: " +:+ x) d a
            = canonical t s k e (x +:+ " :: " +:+ d) a) as Hc.
  { intros. unfold canonical. rewrite !append_assoc. reflexivity. }
  split; [exact Hc|].
  rewrite !add_token_cases. unfold attrs1, attrs2.
  rewrite !lookup_insert_eq.
  rewrite !(lookup_insert_ne _ "displayName") by discriminate.
  rewrite !lookup_insert_eq.
  rewrite !(lookup_insert_ne _ "eppn") by discriminate.
  destruct (files w !! "./adata"); [|reflexivity].
  destruct (attrs !! "secret"); [reflexivity|].
  destruct (attrs !! "time"), (attrs !! "salt"), (attrs !! "affiliation");
    try reflexivity.
  cbn [fst result_map]. rewrite !lookup_insert_eq.
  unfold token_of. rewrite Hc. reflexivity.
Qed.

End ExtraBoundaries.

Section ExtraEncoding.

Implicit Types (attrs : gmap string string) (w : World).

Lemma encode_attributes_cases attrs :
  encode_attributes attrs =
  match attrs !! "eppn" with
  | None => Raise (KeyError "eppn")
  | Some e =>
  match attrs !! "displayName" with
  | None => Raise (KeyError "displayName")
  | Some d =>
  match attrs !! "affiliation" with
  | None => Raise (KeyError "affiliation")
  | Some a =>
  match attrs !! "url" with
  | None => Raise (KeyError "url")
  | Some u =>
  match attrs !! "salt" with
  | None => Raise (KeyError "salt")
  | Some _ =>
  match attrs !! "token" with
  | None => Raise (KeyError "token")
  | Some _ => Ok (encoded attrs e d a u)
  end end end end end end.
Proof.
  destruct (attrs !! "eppn") as [e|] eqn:He;
    [destruct (attrs !! "displayName") as [d|] eqn:Hd;
     [destruct (attrs !! "affiliation") as [a|] eqn:Ha;
      [destruct (attrs !! "url") as [u|] eqn:Hu;
       [destruct (attrs !! "salt") as [s|] eqn:Hs;
        [destruct (attrs !! "token") as [tok|] eqn:Htok|]|]|]|]|];
    [apply (encode_attributes_eq attrs e d a u s tok); assumption|..];
    unfold encode_attributes, getitem, result_bind;
    rewrite ?He; cbv beta iota zeta;
    rewrite ?lookup_insert_ne by discriminate;
    rewrite ?Hd; cbv beta iota zeta;
    rewrite ?lookup_insert_ne by discriminate;
    rewrite ?Ha; cbv beta iota zeta;
    rewrite ?lookup_insert_ne by discriminate;
    rewrite ?Hu; cbv beta iota zeta;
    rewrite ?lookup_insert_ne by discriminate;
    rewrite ?Hs; cbv beta iota zeta;
    rewrite ?lookup_insert_ne by discriminate;
    rewrite ?lookup_insert_eq;
    rewrite ?lookup_insert_ne by discriminate;
    rewrite ?Htok; reflexivity.
Qed.

(** X5. [encode_attributes] looks its six entries up in the order [eppn],
    [displayName], [affiliation], [url], [salt], [token]: it raises the
    [KeyError] of the first one that is absent, and succeeds exactly when
    none is. An entry [time] is not needed. *)
Theorem encode_attributes_failure_order attrs :
  (forall k, first_absent attrs encoded_fields = Some k ->
     encode_attributes attrs = Raise (KeyError k))
  /\ ((exists request_data, encode_attributes attrs = Ok request_data)
      <-> first_absent attrs encoded_fields = None).
Proof.
  rewrite encode_attributes_cases. unfold encoded_fields. cbn [first_absent].
  split.
  - intros k.
    destruct (attrs !! "eppn"), (attrs !! "displayName"),
      (attrs !! "affiliation"), (attrs !! "url"), (attrs !! "salt"),
      (attrs !! "token"); intros [= <-]; reflexivity.
  - destruct (attrs !! "eppn"), (attrs !! "displayName"),
      (attrs !! "affiliation"), (attrs !! "url"), (attrs !! "salt"),
      (attrs !! "token");
      (split;
       [ intros [? H]; first [discriminate H | reflexivity]
       | intros H; first [discriminate H | eexists; reflexivity] ]).
Qed.

Lemma format_query_pattern_cases (kw : gmap string string) :
  PyFormat.format query_pattern [] kw =
  match kw !! "token" with
  | None => Raise (KeyError "token")
  | Some tok =>
  match kw !! "time" with
  | None => Raise (KeyError "time")
  | Some t =>
  match kw !! "salt" with
  | None => Raise (KeyError "salt")
  | Some s =>
  match kw !! "eppn" with
  | None => Raise (KeyError "eppn")
  | Some e =>
  match kw !! "displayName" with
  | None => Raise (KeyError "displayName")
  | Some d =>
  match kw !! "affiliation" with
  | None => Raise (KeyError "affiliation")
  | Some a =>
  match kw !! "url" with
  | None => Raise (KeyError "url")
  | Some u => Ok (Bytes.join "&" (parameters tok t s e d a u))
  end end end end end end end.
Proof.
  unfold PyFormat.format, query_pattern, parameters. simpl.
  destruct (kw !! "token"); [|reflexivity].
  destruct (kw !! "time"); [|reflexivity].
  destruct (kw !! "salt"); [|reflexivity].
  destruct (kw !! "eppn"); [|reflexivity].
  destruct (kw !! "displayName"); [|reflexivity].
  destruct (kw !! "affiliation"); [|reflexivity].
  destruct (kw !! "url"); [|reflexivity].
  simpl. rewrite append_nil_r, !append_assoc. reflexivity.
Qed.

(** X7. [query_string] needs all seven entries: it raises the [KeyError] of
    the first of [token], [time], [salt], [eppn], [displayName],
    [affiliation], [url] that is absent, and succeeds exactly when none
    is; [redirect_url] fails and succeeds with it. *)
Theorem query_string_failure_order attrs :
  (forall k, first_absent attrs query_fields = Some k ->
     query_string attrs = Raise (KeyError k)
     /\ redirect_url attrs = Raise (KeyError k))
  /\ ((exists query, query_string attrs = Ok query)
      <-> first_absent attrs query_fields = None).
Proof.
  unfold redirect_url, query_string. cbv zeta.
  rewrite format_query_pattern_cases. unfold query_fields. cbn [first_absent].
  split.
  - intros k.
    destruct (attrs !! "token"), (attrs !! "time"), (attrs !! "salt"),
      (attrs !! "eppn"), (attrs !! "displayName"), (attrs !! "affiliation"),
      (attrs !! "url"); intros [= <-]; split; reflexivity.
  - destruct (attrs !! "token"), (attrs !! "time"), (attrs !! "salt"),
      (attrs !! "eppn"), (attrs !! "displayName"), (attrs !! "affiliation"),
      (attrs !! "url");
      (split;
       [ intros [? H]; first [discriminate H | reflexivity]
       | intros H; first [discriminate H | eexists; reflexivity] ]).
Qed.

Lemma urlsafe_b64encode_grows s :
  s <> "" -> (String.length s < String.length (Base64.urlsafe_b64encode s))%nat.
Proof.
  intros Hs. rewrite urlsafe_b64encode_length.
  destruct s as [|c s]; [congruence|]. cbn [String.length].
  generalize (String.length s). intros n.
  pose proof (Nat.div_mod (S n + 2) 3 ltac:(discriminate)) as Hdm.
  pose proof (Nat.mod_upper_bound (S n + 2) 3 ltac:(discriminate)) as Hm.
  lia.
Qed.

(** X6. [encode_attributes] is not idempotent: applied to its own result it
    encodes the four claims a second time, and a claim that is not empty
    then differs from its first encoding; decoding it once gives the first
    encoding back, not the claim. *)
Theorem encode_attributes_twice attrs e d a u s tok :
  attrs !! "eppn" = Some e -> attrs !! "displayName" = Some d ->
  attrs !! "affiliation" = Some a -> attrs !! "url" = Some u ->
  attrs !! "salt" = Some s -> attrs !! "token" = Some tok ->
  let b64 := Base64.urlsafe_b64encode in
  exists once twice,
    encode_attributes attrs = Ok once
    /\ encode_attributes once = Ok twice
    /\ twice = encoded once (b64 e) (b64 d) (b64 a) (b64 u)
    /\ twice !! "eppn" = Some (b64 (b64 e))
    /\ (e <> "" -> twice !! "eppn" <> once !! "eppn")
    /\ Base64.urlsafe_b64decode (b64 (b64 e)) = Ok (b64 e).
Proof.
  intros He Hd Ha Hu Hs Htok b64.
  exists (encoded attrs e d a u),
    (encoded (encoded attrs e d a u) (b64 e) (b64 d) (b64 a) (b64 u)).
  split; [apply (encode_attributes_eq attrs e d a u s tok); assumption|].
  split.
  { apply (encode_attributes_eq _ (b64 e) (b64 d) (b64 a) (b64 u) s tok);
      unfold encoded; by simplify_map_eq. }
  split; [reflexivity|].
  split; [unfold encoded; by simplify_map_eq|].
  split; [|apply urlsafe_b64_roundtrip].
  intros Hne. unfold encoded.
  rewrite !(lookup_insert_ne _ "url"), !(lookup_insert_ne _ "affiliation"),
    !(lookup_insert_ne _ "displayName"), !lookup_insert_eq by discriminate.
  intros [= Heq].
  assert (b64 e <> "") as Hne' by (apply urlsafe_b64encode_nonempty, Hne).
  pose proof (urlsafe_b64encode_grows (b64 e) Hne') as Hlt.
  unfold b64 in *. rewrite Heq in Hlt. lia.
Qed.

End ExtraEncoding.

Lemma encode_attributes_twice_witness :
  exists once twice,
    encode_attributes (<["token" := "00ff"]> sample_attrs) = Ok once
    /\ encode_attributes once = Ok twice
    /\ twice !! "affiliation" = Some "YzNSaFptWT0="
    /\ once !! "affiliation" = Some "c3RhZmY=".
Proof.
  destruct (encode_attributes_twice (<["token" := "00ff"]> sample_attrs)
              "jdoe@example.edu" "Jane Doe" "staff" "a=1&b=2" "deadbeef" "00ff")
    as (once & twice & H1 & H2 & H3 & _); try reflexivity.
  exists once, twice. split; [exact H1|]. split; [exact H2|].
  assert (once = encoded (<["token" := "00ff"]> sample_attrs)
                   "jdoe@example.edu" "Jane Doe" "staff" "a=1&b=2") as ->.
  { assert (Ok once = Ok (encoded (<["token" := "00ff"]> sample_attrs)
                     "jdoe@example.edu" "Jane Doe" "staff" "a=1&b=2")) as [= ->].
    { rewrite <- H1. vm_compute. reflexivity. }
    reflexivity. }
  rewrite H3. split; vm_compute; reflexivity.
Defined.

Section ExtraRedirect.

Implicit Types (attrs : gmap string string) (w : World).

Lemma all_join (q : ascii -> bool) (sep : string) (parts : list string) :
  Bytes.all q sep = true ->
  Forall (fun p => Bytes.all q p = true) parts ->
  Bytes.all q (Bytes.join sep parts) = true.
Proof.
  intros Hsep Hparts. induction Hparts as [|p ps Hp Hps IH]; [reflexivity|].
  destruct ps as [|p' ps]; [exact Hp|].
  change (Bytes.join sep (p :: p' :: ps))
    with (p +:+ sep +:+ Bytes.join sep (p' :: ps)).
  rewrite !all_app, Hp, Hsep, IH. reflexivity.
Qed.

Lemma location_char_of (q : ascii -> bool) :
  Bytes.for_all_bytes (fun c => implb (q c) (is_location_char c)) = true ->
  forall s, Bytes.all q s = true -> Bytes.all is_location_char s = true.
Proof.
  intros Hq s. apply all_impl. intros c Hc.
  pose proof (for_all_bytes_spec _ Hq c) as Himp. cbv beta in Himp.
  rewrite Hc in Himp. exact Himp.
Qed.

Lemma hex_location_chars s :
  Bytes.all Hex.is_lower_hex s = true -> Bytes.all is_location_char s = true.
Proof. apply location_char_of. vm_compute. reflexivity. Qed.

Lemma urlsafe_location_chars s :
  Bytes.all Base64.is_urlsafe s = true -> Bytes.all is_location_char s = true.
Proof. apply location_char_of. vm_compute. reflexivity. Qed.

Lemma float_location_chars s :
  Bytes.all PyFloat.is_float_char s = true ->
  Bytes.all is_location_char s = true.
Proof. apply location_char_of. vm_compute. reflexivity. Qed.

(** X8. Whatever bytes the headers, the query string and the secret hold
    (line breaks, spaces, quotes, [&], [=]), the URL of the redirect is
    made of letters, digits and [- _ = . & ? : / #] only: the [Location]
    header is one line, ended by the one line break the script prints. *)
Theorem redirect_line_is_one_header w e d a content :
  environ w !! "HTTP_EPPN" = Some e ->
  environ w !! "HTTP_DISPLAYNAME" = Some d ->
  environ w !! "HTTP_AFFILIATION" = Some a ->
  files w !! "./adata" = Some content ->
  exists target_url,
    stdout (run w) = stdout w ++ [Printed ("Location: " +:+ target_url +:+ CRLF)]
    /\ Bytes.all is_location_char target_url = true
    /\ Bytes.mem (Bytes.chr 13) target_url = false
    /\ Bytes.mem (Bytes.chr 10) target_url = false
    /\ Bytes.mem " " target_url = false.
Proof.
  intros He Hd Ha Hf.
  set (u := default "" (environ w !! "QUERY_STRING")).
  exists ((REDIRECT_TARGET +:+ "?")
          +:+ Bytes.join "&" (request_parameters w e d a u (Bytes.strip content))).
  assert (Bytes.all is_location_char
            ((REDIRECT_TARGET +:+ "?")
             +:+ Bytes.join "&"
                   (request_parameters w e d a u (Bytes.strip content)))
          = true) as Hall.
  { rewrite all_app. apply andb_true_intro. split; [reflexivity|].
    apply all_join; [reflexivity|].
    unfold request_parameters, parameters.
    repeat apply Forall_cons_2; try apply Forall_nil_2;
      rewrite all_app; apply andb_true_intro; (split; [reflexivity|]).
    - apply hex_location_chars, token_of_hex.
    - apply float_location_chars, format_f_chars.
    - apply hex_location_chars, hexlify_lower.
    - apply urlsafe_location_chars, urlsafe_b64encode_alphabet.
    - apply urlsafe_location_chars, urlsafe_b64encode_alphabet.
    - apply urlsafe_location_chars, urlsafe_b64encode_alphabet.
    - apply urlsafe_location_chars, urlsafe_b64encode_alphabet. }
  split.
  { rewrite (run_success w _ (main_success w e d a content He Hd Ha Hf)).
    reflexivity. }
  split; [exact Hall|].
  repeat split; apply (all_not_mem is_location_char); try exact Hall; reflexivity.
Qed.

End ExtraRedirect.

(** A request whose headers hold line breaks. *)
Lemma redirect_line_is_one_header_witness :
  exists target_url,
    stdout (run sample_world_line_breaks)
    = [Printed ("Location: " +:+ target_url +:+ CRLF)]
    /\ Bytes.mem (Bytes.chr 10) target_url = false.
Proof.
  destruct (redirect_line_is_one_header sample_world_line_breaks
              ("jdoe" +:+ CRLF +:+ "Set-Cookie: a=b") "Jane Doe" "staff" "s3cr3t")
    as (target_url & Hout & _ & _ & Hlf & _); try reflexivity.
  exists target_url. split; [exact Hout|exact Hlf].
Defined.

Section ExtraRun.

Implicit Types (attrs : gmap string string) (w : World).

(** X9. Claim extraction looks the headers up in the order [HTTP_EPPN],
    [HTTP_DISPLAYNAME], [HTTP_AFFILIATION] and raises the [KeyError] of the
    first one that is absent. When it succeeds its result holds the four
    entries [eppn], [displayName], [affiliation], [url] and no other,
    whatever else the environment holds. *)
Theorem extract_saml_attrs_first_missing {E : Type} (env : E) w :
  (forall k, first_absent (environ w) headers = Some k ->
     extract_saml_attrs env w = (Raise (KeyError k), w))
  /\ (forall attrs, fst (extract_saml_attrs env w) = Ok attrs ->
        first_absent (environ w) headers = None
        /\ dom attrs = {[ "eppn"; "displayName"; "affiliation"; "url" ]}).
Proof.
  rewrite extract_saml_attrs_eq. unfold headers. cbn [first_absent].
  destruct (environ w !! "HTTP_EPPN"), (environ w !! "HTTP_DISPLAYNAME"),
    (environ w !! "HTTP_AFFILIATION");
    (split; [intros k [= <-]; reflexivity|intros attrs [= <-]]).
  split; [reflexivity|]. unfold saml_dict. rewrite !dom_insert_L, dom_empty_L.
  apply set_eq. intros k.
  rewrite !elem_of_union, !elem_of_singleton, elem_of_empty. tauto.
Qed.

(** X10. A run fails at the first thing that is missing, in the order in which
    the script needs it: an absent header is reported whether or not the
    secret can be read, and before any salt is drawn; an unreadable secret
    is reported only when the three headers are there, after the salt was
    drawn. A redirect is printed exactly when the three headers are present
    and the secret file can be read. *)
Theorem run_failure_order w :
  (forall k, first_absent (environ w) headers = Some k ->
     run w = after_report w (KeyError k))
  /\ (first_absent (environ w) headers = None ->
      files w !! "./adata" = None ->
      run w = after_report (after_urandom w SALT_LENGTH) (IOError "./adata"))
  /\ (redirects (run w) <> redirects w
      <-> first_absent (environ w) headers = None
          /\ is_Some (files w !! "./adata")).
Proof.
  unfold headers. cbn [first_absent].
  destruct (environ w !! "HTTP_EPPN") as [e|] eqn:He;
    [destruct (environ w !! "HTTP_DISPLAYNAME") as [d|] eqn:Hd;
     [destruct (environ w !! "HTTP_AFFILIATION") as [a|] eqn:Ha|]|].
  - split; [intros k [=]|].
    destruct (files w !! "./adata") as [content|] eqn:Hf.
    + split; [intros _ [=]|].
      rewrite (run_success w _ (main_success w e d a content He Hd Ha Hf)).
      rewrite redirects_after_print_location, redirects_after_urandom.
      split; [eauto|]. intros _ Heq.
      apply (f_equal length) in Heq. rewrite length_app in Heq.
      cbn [length] in Heq. lia.
    + pose proof (main_unreadable_secret w e d a He Hd Ha Hf) as Hm.
      rewrite (run_failure _ _ _ Hm).
      split; [reflexivity|].
      rewrite redirects_after_report, redirects_after_urandom.
      split; [congruence|intros [_ [? [=]]]].
  - assert (main w = (Raise (KeyError "HTTP_AFFILIATION"), w)) as Hm.
    { apply (main_missing_header (environ w)).
      rewrite extract_saml_attrs_eq, He, Hd, Ha. reflexivity. }
    rewrite (run_failure _ _ _ Hm), redirects_after_report.
    split; [intros k [= <-]; reflexivity|].
    split; [intros [=]|]. split; [congruence|intros [[=] _]].
  - assert (main w = (Raise (KeyError "HTTP_DISPLAYNAME"), w)) as Hm.
    { apply (main_missing_header (environ w)).
      rewrite extract_saml_attrs_eq, He, Hd. reflexivity. }
    rewrite (run_failure _ _ _ Hm), redirects_after_report.
    split; [intros k [= <-]; reflexivity|].
    split; [intros [=]|]. split; [congruence|intros [[=] _]].
  - assert (main w = (Raise (KeyError "HTTP_EPPN"), w)) as Hm.
    { apply (main_missing_header (environ w)).
      rewrite extract_saml_attrs_eq, He. reflexivity. }
    rewrite (run_failure _ _ _ Hm), redirects_after_report.
    split; [intros k [= <-]; reflexivity|].
    split; [intros [=]|]. split; [congruence|intros [[=] _]].
Qed.

(** X11. A run reads the environment, the secret file, the clock and the
    entropy source and changes none of them; it adds exactly one item to
    standard output, the redirect or the report of the exception, after
    what was there; and it draws [SALT_LENGTH] bytes of entropy unless a
    header is missing, in which case it draws none. *)
Theorem run_changes_only_output w :
  environ (run w) = environ w /\ files (run w) = files w
  /\ clock (run w) = clock w /\ entropy (run w) = entropy w
  /\ exists o,
       stdout (run w) = stdout w ++ [o]
       /\ drawn (run w)
          = (drawn w + match o with
                       | CgitbReport (KeyError _) => 0
                       | _ => SALT_LENGTH
                       end)%nat.
Proof.
  destruct (run_cases w) as [[k ->] | [-> | (e & d & a & k & _ & _ & _ & _ & ->)]];
    repeat split; eexists; (split; [reflexivity|]); cbn; lia.
Qed.

End ExtraRun.

Section ExtraSecret.

Implicit Types (attrs : gmap string string) (w : World).

Lemma lstrip_spaces (pre s : string) :
  Bytes.all Bytes.isspace pre = true ->
  Bytes.lstrip (pre +:+ s) = Bytes.lstrip s.
Proof.
  induction pre as [|c pre IH]; [reflexivity|].
  cbn [Bytes.all]. intros [Hc Hpre]%andb_prop.
  rewrite append_cons. cbn [Bytes.lstrip]. rewrite Hc. apply IH, Hpre.
Qed.

Lemma rstrip_all_spaces (s : string) :
  Bytes.all Bytes.isspace s = true -> Bytes.rstrip s = "".
Proof.
  induction s as [|c s IH]; [reflexivity|].
  cbn [Bytes.all Bytes.rstrip]. intros [Hc Hs]%andb_prop.
  rewrite (IH Hs), Hc. reflexivity.
Qed.

Lemma rstrip_spaces (s post : string) :
  Bytes.all Bytes.isspace post = true ->
  Bytes.rstrip (s +:+ post) = Bytes.rstrip s.
Proof.
  intros Hpost. induction s as [|c s IH].
  - rewrite append_nil_l. apply rstrip_all_spaces, Hpost.
  - rewrite append_cons. cbn [Bytes.rstrip]. rewrite IH. reflexivity.
Qed.

Lemma lstrip_all_spaces (s : string) :
  Bytes.all Bytes.isspace s = true -> Bytes.lstrip s = "".
Proof.
  induction s as [|c s IH]; [reflexivity|].
  cbn [Bytes.all Bytes.lstrip]. intros [Hc Hs]%andb_prop.
  rewrite Hc. apply IH, Hs.
Qed.

Lemma lstrip_append (s post : string) :
  Bytes.all Bytes.isspace s = false ->
  Bytes.lstrip (s +:+ post) = Bytes.lstrip s +:+ post.
Proof.
  induction s as [|c s IH]; [discriminate|].
  cbn [Bytes.all]. rewrite append_cons. cbn [Bytes.lstrip].
  destruct (Bytes.isspace c); [|reflexivity].
  rewrite andb_true_l. exact IH.
Qed.

(** Whitespace around a string does not change what [strip] returns. *)
Lemma strip_surrounded (pre s post : string) :
  Bytes.all Bytes.isspace pre = true ->
  Bytes.all Bytes.isspace post = true ->
  Bytes.strip (pre +:+ s +:+ post) = Bytes.strip s.
Proof.
  intros Hpre Hpost. unfold Bytes.strip. rewrite (lstrip_spaces _ _ Hpre).
  destruct (Bytes.all Bytes.isspace s) eqn:Hs.
  - rewrite (lstrip_all_spaces s Hs).
    rewrite lstrip_all_spaces; [reflexivity|].
    rewrite all_app, Hs, Hpost. reflexivity.
  - rewrite (lstrip_append _ _ Hs). apply rstrip_spaces, Hpost.
Qed.

(** X12. The secret does not depend on the whitespace around it in the file:
    a file that holds the same text between other spaces, tabs or line
    breaks gives the same secret, hence the same token; and stripping
    twice changes nothing more. *)
Theorem read_secret_ignores_surrounding_whitespace w w' content pre post :
  files w !! "./adata" = Some content ->
  files w' !! "./adata" = Some (pre +:+ content +:+ post) ->
  Bytes.all Bytes.isspace pre = true ->
  Bytes.all Bytes.isspace post = true ->
  fst (read_secret w') = fst (read_secret w)
  /\ (forall t s e d a,
        token_of t s (Bytes.strip (pre +:+ content +:+ post)) e d a
        = token_of t s (Bytes.strip content) e d a)
  /\ Bytes.strip (Bytes.strip content) = Bytes.strip content.
Proof.
  intros Hf Hf' Hpre Hpost. rewrite !read_secret_eq, Hf, Hf'.
  rewrite (strip_surrounded _ _ _ Hpre Hpost).
  split; [reflexivity|]. split; [reflexivity|].
  destruct (strip_spec content) as (p & q & Heq & Hp & Hq & _).
  rewrite Heq at 2. symmetry. apply strip_surrounded; assumption.
Qed.

End ExtraSecret.

Lemma read_secret_ignores_surrounding_whitespace_witness :
  fst (read_secret sample_world) = fst (read_secret sample_world_line_breaks).
Proof.
  refine (proj1 (read_secret_ignores_surrounding_whitespace
                   sample_world_line_breaks sample_world "s3cr3t"
                   (String (Bytes.chr 32) "") CRLF _ _ _ _));
    reflexivity.
Defined.

Section ExtraVerify.

Implicit Types (attrs : gmap string string) (w : World).

(** X13. The redirect carries what a verifier that holds the secret needs: the
    [time] and [salt] as they entered the digest, and the claims in an
    encoding it can undo. Decoding [eppn], [name] and [affil] and
    recomputing the digest over the ordered fields gives the [token] of the
    redirect. *)
Theorem redirect_token_verifiable w e d a content :
  environ w !! "HTTP_EPPN" = Some e ->
  environ w !! "HTTP_DISPLAYNAME" = Some d ->
  environ w !! "HTTP_AFFILIATION" = Some a ->
  files w !! "./adata" = Some content ->
  exists token time salt eppn name affil url,
    stdout (run w) =
    stdout w
    ++ [Printed
          (location_line
             ((REDIRECT_TARGET +:+ "?")
              +:+ Bytes.join "&" (parameters token time salt eppn name affil url)))]
    /\ Base64.urlsafe_b64decode eppn = Ok e
    /\ Base64.urlsafe_b64decode name = Ok d
    /\ Base64.urlsafe_b64decode affil = Ok a
    /\ Base64.urlsafe_b64decode url = Ok (default "" (environ w !! "QUERY_STRING"))
    /\ token = token_of time salt (Bytes.strip content) e d a.
Proof.
  intros He Hd Ha Hf.
  exists (token_of (fresh_time w) (fresh_salt w) (Bytes.strip content) e d a),
    (fresh_time w), (fresh_salt w), (Base64.urlsafe_b64encode e),
    (Base64.urlsafe_b64encode d), (Base64.urlsafe_b64encode a),
    (Base64.urlsafe_b64encode (default "" (environ w !! "QUERY_STRING"))).
  split.
  { rewrite (run_success w _ (main_success w e d a content He Hd Ha Hf)).
    reflexivity. }
  rewrite !urlsafe_b64_roundtrip. auto.
Qed.

(** X14. The [time] entry is the reading of the clock to the nearest millionth
    of a second: for a reading [m * 2^e] after the epoch it is written as
    integer digits, a dot and six decimals, and the number of millionths
    these digits denote is within one half of [m * 2^e * 10^6]. *)
Theorem time_entry_nearest_millionth attrs w m e :
  clock w = S754_finite false m e ->
  exists int frac attrs' w',
    add_instance_attrs attrs w = (Ok attrs', w')
    /\ attrs' !! "time" = Some (int +:+ "." +:+ frac)
    /\ Bytes.all PyFloat.is_digit int = true /\ int <> ""
    /\ Bytes.all PyFloat.is_digit frac = true /\ String.length frac = 6%nat
    /\ let q := PyFloat.value int * 10 ^ 6 + PyFloat.value frac in
       let scale := 2 ^ Z.to_N (- e) in
       let exact := N.pos m * 10 ^ 6 * 2 ^ Z.to_N e in
       2 * (q * scale) <= 2 * exact + scale
       /\ 2 * exact <= 2 * (q * scale) + scale.
Proof.
  intros Hclock.
  exists (PyFloat.decimal (PyFloat.micros m e / 10 ^ 6)),
    (PyFloat.six_decimals (PyFloat.micros m e mod 10 ^ 6)).
  eexists _, _. split; [apply add_instance_attrs_eq|].
  split.
  { rewrite lookup_insert_ne, lookup_insert_eq by discriminate.
    unfold fresh_time. rewrite Hclock. reflexivity. }
  split; [apply decimal_digits|]. split; [apply decimal_nonempty|].
  split; [apply six_decimals_digits|]. split; [reflexivity|].
  rewrite fixed6_value. apply micros_nearest.
Qed.

End ExtraVerify.

Lemma redirect_token_verifiable_witness :
  exists token time salt eppn name affil url,
    stdout (run sample_world) =
    [Printed
       (location_line
          ((REDIRECT_TARGET +:+ "?")
           +:+ Bytes.join "&" (parameters token time salt eppn name affil url)))]
    /\ Base64.urlsafe_b64decode eppn = Ok "jdoe@example.edu"
    /\ token = token_of time salt "s3cr3t" "jdoe@example.edu" "Jane Doe" "staff".
Proof.
  destruct (redirect_token_verifiable sample_world
              "jdoe@example.edu" "Jane Doe" "staff"
              (String (Bytes.chr 32) ("s3cr3t" +:+ CRLF)))
    as (token & time & salt & eppn & name & affil & url
        & Hout & He & _ & _ & _ & Htok); try reflexivity.
  exists token, time, salt, eppn, name, affil, url.
  split; [exact Hout|]. split; [exact He|]. exact Htok.
Defined.

Lemma time_entry_nearest_millionth_witness :
  exists attrs',
    fst (add_instance_attrs sample_attrs sample_world) = Ok attrs'
    /\ attrs' !! "time" = Some "1700000000.000000".
Proof.
  destruct (time_entry_nearest_millionth sample_attrs sample_world
              1700000000 0 eq_refl)
    as (int & frac & attrs' & w' & Hrun & Htime & _).
  exists attrs'. rewrite Hrun. split; [reflexivity|].
  rewrite add_instance_attrs_eq in Hrun. injection Hrun as <- _.
  vm_compute. reflexivity.
Defined.

Section DiagnosticFacts.

Implicit Types (attrs : gmap string string) (w : World).

Lemma bind_print {B} (s : string) (k : unit -> M B) w :
  bind (print s) k w = k tt (after_print w s).
Proof. reflexivity. Qed.

Lemma bind_lift_ok {A B} (a : A) (k : A -> M B) w :
  bind (lift (Ok a)) k w = k a w.
Proof. reflexivity. Qed.

Lemma bind_lift_raise {A B} (e : exn) (k : A -> M B) w :
  bind (lift (Raise e)) k w = (Raise e, w).
Proof. reflexivity. Qed.

Lemma after_print_lines w s : after_print w s = after_lines w [s].
Proof. reflexivity. Qed.

Lemma after_lines_print w lines s :
  after_print (after_lines w lines) s = after_lines w (lines ++ [s]).
Proof.
  unfold after_print, after_lines. cbn [environ files clock entropy drawn stdout].
  rewrite map_app, app_assoc. reflexivity.
Qed.

(** A pattern that ends in its only field. *)
Lemma format_trailing_field (prefix v : string) :
  Bytes.mem "{" prefix = false -> Bytes.mem "}" prefix = false ->
  PyFormat.format (prefix +:+ "{}") [v] ∅ = Ok (prefix +:+ v).
Proof.
  unfold PyFormat.format. induction prefix as [|c p IH]; intros Ho Hc.
  - rewrite !append_nil_l. cbn. rewrite append_nil_r. reflexivity.
  - rewrite !append_cons. cbn [Bytes.mem] in Ho, Hc.
    apply orb_false_elim in Ho as [Ho Ho'].
    apply orb_false_elim in Hc as [Hc Hc'].
    cbn [PyFormat.format_from].
    unfold Bytes.eqb in *. rewrite Ascii.eqb_sym in Ho. rewrite Ascii.eqb_sym in Hc.
    rewrite Ho, Hc, (IH Ho' Hc'). reflexivity.
Qed.



Lemma diagnostic_output_eq {E} (env : E) cwd attrs target_url w u x y z e d a tok :
  attrs !! "url" = Some u -> attrs !! "eppn" = Some x ->
  attrs !! "displayName" = Some y -> attrs !! "affiliation" = Some z ->
  attrs !! "token" = Some tok ->
  Base64.urlsafe_b64decode x = Ok e -> Base64.urlsafe_b64decode y = Ok d ->
  Base64.urlsafe_b64decode z = Ok a ->
  diagnostic_output cwd attrs target_url env w =
  (Ok tt,
   after_lines w
     ["Content-type: text/html" +:+ CRLF;
      "<html>" +:+ LF +:+ "  <body>";
      "<h1>SSO Attributes for request " +:+ u +:+ " </h1>";
      "EPPN         " +:+ e; "<br/>";
      "Display Name " +:+ d; "<br/>";
      "Affiliation  " +:+ a; "<br/>";
      "Redirect to: " +:+ target_url; "<br/>";
      "Token        " +:+ tok; "<br/>";
      "Directory    " +:+ cwd; "<br/>";
      "Diagnostic completed!";
      "  </body>" +:+ LF +:+ "</html>"]).
Proof.
  intros Hu Hx Hy Hz Htok He Hd Ha.
  assert (PyFormat.format "<h1>SSO Attributes for request {} </h1>" [u] ∅
          = Ok ("<h1>SSO Attributes for request " +:+ u +:+ " </h1>")) as Hh
    by reflexivity.
  assert (PyFormat.format "EPPN         {}" [e] ∅ = Ok ("EPPN         " +:+ e))
    as H1 by (apply (format_trailing_field "EPPN         "); reflexivity).
  assert (PyFormat.format "Display Name {}" [d] ∅ = Ok ("Display Name " +:+ d))
    as H2 by (apply (format_trailing_field "Display Name "); reflexivity).
  assert (PyFormat.format "Affiliation  {}" [a] ∅ = Ok ("Affiliation  " +:+ a))
    as H3 by (apply (format_trailing_field "Affiliation  "); reflexivity).
  assert (PyFormat.format "Redirect to: {}" [target_url] ∅
          = Ok ("Redirect to: " +:+ target_url))
    as H4 by (apply (format_trailing_field "Redirect to: "); reflexivity).
  assert (PyFormat.format "Token        {}" [tok] ∅ = Ok ("Token        " +:+ tok))
    as H5 by (apply (format_trailing_field "Token        "); reflexivity).
  assert (PyFormat.format "Directory    {}" [cwd] ∅ = Ok ("Directory    " +:+ cwd))
    as H6 by (apply (format_trailing_field "Directory    "); reflexivity).
  unfold diagnostic_output, getitem. rewrite Hu, Hx, Hy, Hz, Htok.
  rewrite 2!bind_print, bind_lift_ok. cbv beta.
  rewrite Hh, bind_lift_ok. cbv beta.
  rewrite bind_print, bind_lift_ok. cbv beta.
  rewrite He, bind_lift_ok. cbv beta.
  rewrite H1, bind_lift_ok. cbv beta.
  rewrite 2!bind_print, bind_lift_ok. cbv beta.
  rewrite Hd, bind_lift_ok. cbv beta.
  rewrite H2, bind_lift_ok. cbv beta.
  rewrite 2!bind_print, bind_lift_ok. cbv beta.
  rewrite Ha, bind_lift_ok. cbv beta.
  rewrite H3, bind_lift_ok. cbv beta.
  rewrite 2!bind_print.
  rewrite H4, bind_lift_ok. cbv beta.
  rewrite 2!bind_print, bind_lift_ok. cbv beta.
  rewrite H5, bind_lift_ok. cbv beta.
  rewrite 2!bind_print.
  rewrite H6, bind_lift_ok. cbv beta.
  rewrite 3!bind_print.
  change (print ?s ?w') with (Ok tt, after_print w' s). f_equal.
  rewrite (after_print_lines w), !after_lines_print. reflexivity.
Qed.



Lemma after_lines_lines w l1 l2 :
  after_lines (after_lines w l1) l2 = after_lines w (l1 ++ l2).
Proof.
  unfold after_lines. cbn [environ files clock entropy drawn stdout].
  rewrite map_app, app_assoc. reflexivity.
Qed.

Lemma after_lines_nil w : after_lines w [] = w.
Proof. destruct w. unfold after_lines. cbn. rewrite app_nil_r. reflexivity. Qed.

(** X15. After [encode_attributes], the diagnostic page shows the claims as they
    were before encoding: the three identity claims are decoded back. The
    request URL in its heading is printed as the map holds it, that is
    still encoded, and the token as it is. *)
Theorem diagnostic_output_after_encoding {E : Type} (env : E) cwd attrs
    target_url w e d a u s tok :
  attrs !! "eppn" = Some e -> attrs !! "displayName" = Some d ->
  attrs !! "affiliation" = Some a -> attrs !! "url" = Some u ->
  attrs !! "salt" = Some s -> attrs !! "token" = Some tok ->
  exists request_data,
    encode_attributes attrs = Ok request_data
    /\ diagnostic_output cwd request_data target_url env w =
       (Ok tt,
        after_lines w
          ["Content-type: text/html" +:+ CRLF;
           "<html>" +:+ LF +:+ "  <body>";
           "<h1>SSO Attributes for request " +:+ Base64.urlsafe_b64encode u
             +:+ " </h1>";
           "EPPN         " +:+ e; "<br/>";
           "Display Name " +:+ d; "<br/>";
           "Affiliation  " +:+ a; "<br/>";
           "Redirect to: " +:+ target_url; "<br/>";
           "Token        " +:+ tok; "<br/>";
           "Directory    " +:+ cwd; "<br/>";
           "Diagnostic completed!";
           "  </body>" +:+ LF +:+ "</html>"]).
Proof.
  intros He Hd Ha Hu Hs Htok. exists (encoded attrs e d a u).
  split; [apply (encode_attributes_eq attrs e d a u s tok); assumption|].
  apply (diagnostic_output_eq env cwd _ target_url w
           (Base64.urlsafe_b64encode u) (Base64.urlsafe_b64encode e)
           (Base64.urlsafe_b64encode d) (Base64.urlsafe_b64encode a) e d a tok);
    try apply urlsafe_b64_roundtrip; unfold encoded; by simplify_map_eq.
Qed.

(** X16. What goes wrong in [diagnostic_output] goes wrong in the middle of the
    page: the header and the opening of the page are printed before the
    first entry is looked up. Without an entry [url] the [KeyError] comes
    after these two lines, and with an [eppn] that does not decode the
    decoder's exception comes after the heading; the page is not closed. *)
Theorem diagnostic_output_partial_page {E : Type} (env : E) cwd attrs
    target_url w :
  (attrs !! "url" = None ->
   diagnostic_output cwd attrs target_url env w
   = (Raise (KeyError "url"), after_lines w [page_header; page_open]))
  /\ (forall u, attrs !! "url" = Some u -> attrs !! "eppn" = None ->
      diagnostic_output cwd attrs target_url env w
      = (Raise (KeyError "eppn"),
         after_lines w
           [page_header; page_open;
            "<h1>SSO Attributes for request " +:+ u +:+ " </h1>"]))
  /\ (forall u x err,
        attrs !! "url" = Some u -> attrs !! "eppn" = Some x ->
        Base64.urlsafe_b64decode x = Raise err ->
        diagnostic_output cwd attrs target_url env w
        = (Raise err,
           after_lines w
             [page_header; page_open;
              "<h1>SSO Attributes for request " +:+ u +:+ " </h1>"])).
Proof.
  split; [|split].
  - intros Hu. unfold diagnostic_output, getitem. rewrite Hu.
    rewrite 2!bind_print, bind_lift_raise.
    rewrite (after_print_lines w), after_lines_print. reflexivity.
  - intros u Hu Hx.
    assert (PyFormat.format "<h1>SSO Attributes for request {} </h1>" [u] ∅
            = Ok ("<h1>SSO Attributes for request " +:+ u +:+ " </h1>")) as Hh
      by reflexivity.
    unfold diagnostic_output, getitem. rewrite Hu, Hx.
    rewrite 2!bind_print, bind_lift_ok. cbv beta.
    rewrite Hh, bind_lift_ok. cbv beta.
    rewrite bind_print, bind_lift_raise.
    rewrite (after_print_lines w), !after_lines_print. reflexivity.
  - intros u x err Hu Hx Herr.
    assert (PyFormat.format "<h1>SSO Attributes for request {} </h1>" [u] ∅
            = Ok ("<h1>SSO Attributes for request " +:+ u +:+ " </h1>")) as Hh
      by reflexivity.
    unfold diagnostic_output, getitem. rewrite Hu, Hx.
    rewrite 2!bind_print, bind_lift_ok. cbv beta.
    rewrite Hh, bind_lift_ok. cbv beta.
    rewrite bind_print, bind_lift_ok. cbv beta.
    rewrite Herr, bind_lift_raise.
    rewrite (after_print_lines w), !after_lines_print. reflexivity.
Qed.

Lemma prints_only_print s : prints_only (print s).
Proof. intros w. exists [s]. reflexivity. Qed.

Lemma prints_only_lift {A} (r : result A) : prints_only (lift r).
Proof. intros w. exists []. symmetry. apply after_lines_nil. Qed.

Lemma prints_only_bind {A B} (m : M A) (k : A -> M B) :
  prints_only m -> (forall a, prints_only (k a)) -> prints_only (bind m k).
Proof.
  intros Hm Hk w. unfold bind. destruct (Hm w) as [l1 H1].
  destruct (m w) as [[a|e] w1]; cbn [snd] in *; subst w1.
  - destruct (Hk a (after_lines w l1)) as [l2 H2].
    exists (l1 ++ l2). rewrite H2. apply after_lines_lines.
  - exists l1. reflexivity.
Qed.

(** X17. Whatever the attributes hold, [diagnostic_output] only prints: it
    leaves the environment, the files, the clock and the entropy source as
    they were, and what it prints starts with the content-type header and
    the opening of the page. It does not use its parameter [env]. *)
Theorem diagnostic_output_only_prints {E1 E2 : Type} (env1 : E1) (env2 : E2)
    cwd attrs target_url w :
  (exists lines,
     snd (diagnostic_output cwd attrs target_url env1 w)
     = after_lines w (page_header :: page_open :: lines))
  /\ diagnostic_output cwd attrs target_url env1 w
     = diagnostic_output cwd attrs target_url env2 w.
Proof.
  split; [|reflexivity].
  unfold diagnostic_output. rewrite 2!bind_print.
  match goal with
  | |- context [snd (?m (after_print (after_print w ?a) ?b))] =>
      assert (prints_only m) as Hm
  end.
  { repeat first [ apply prints_only_print | apply prints_only_lift
                 | apply prints_only_bind; [|intros ?] ]. }
  destruct (Hm (after_print (after_print w page_header) page_open))
    as [lines Hlines].
  exists lines. etransitivity; [exact Hlines|].
  rewrite (after_print_lines w), after_lines_print, after_lines_lines.
  reflexivity.
Qed.

End DiagnosticFacts.

Lemma diagnostic_output_after_encoding_witness :
  exists request_data,
    encode_attributes (<["token" := "00ff"]> sample_attrs) = Ok request_data
    /\ stdout (snd (diagnostic_output "/var/www/cgi-bin" request_data
                      "https://isle.stat.cmu.edu/" tt sample_world))
       = map Printed
           ["Content-type: text/html" +:+ CRLF;
            "<html>" +:+ LF +:+ "  <body>";
            "<h1>SSO Attributes for request YT0xJmI9Mg== </h1>";
            "EPPN         jdoe@example.edu"; "<br/>";
            "Display Name Jane Doe"; "<br/>";
            "Affiliation  staff"; "<br/>";
            "Redirect to: https://isle.stat.cmu.edu/"; "<br/>";
            "Token        00ff"; "<br/>";
            "Directory    /var/www/cgi-bin"; "<br/>";
            "Diagnostic completed!";
            "  </body>" +:+ LF +:+ "</html>"].
Proof.
  destruct (diagnostic_output_after_encoding tt "/var/www/cgi-bin"
              (<["token" := "00ff"]> sample_attrs)
              "https://isle.stat.cmu.edu/" sample_world
              "jdoe@example.edu" "Jane Doe" "staff" "a=1&b=2" "deadbeef" "00ff")
    as (request_data & Henc & Hout); try reflexivity.
  exists request_data. split; [exact Henc|].
  rewrite Hout. vm_compute. reflexivity.
Defined.

(** * The model on known values *)

Section KnownValues.

(** The digests of FIPS 180-4's two sample messages and of the empty
    message. *)
Example sha256_abc :
  Hex.hexlify (SHA256.hash "abc") =
  "ba7816bf8f01cfea414140de5dae2223b00361a396177a9cb410ff61f20015ad".
Proof. vm_compute. reflexivity. Qed.

Example sha256_two_blocks :
  Hex.hexlify
    (SHA256.hash "abcdbcdecdefdefgefghfghighijhijkijkljklmklmnlmnomnopnopq") =
  "248d6a61d20638b8e5c026930c3e6039a33ce45964ff2167f6ecedd419db06c1".
Proof. vm_compute. reflexivity. Qed.

Example sha256_empty :
  Hex.hexlify (SHA256.hash "") =
  "e3b0c44298fc1c149afbf4c8996fb92427ae41e4649b934ca495991b7852b855".
Proof. vm_compute. reflexivity. Qed.

(** The first round constants and initial hash words, as FIPS 180-4
    prints them. *)
Example sha256_constants :
  take 4 SHA256.K = [0x428a2f98; 0x71374491; 0xb5c0fbcf; 0xe9b5dba5]
  /\ last SHA256.K = Some 0xc67178f2
  /\ take 2 SHA256.H0 = [0x6a09e667; 0xbb67ae85]
  /\ length SHA256.K = 64%nat.
Proof. vm_compute. repeat split. Qed.

(** URL-safe base64 uses [-] and [_] and keeps its padding. *)
Example urlsafe_b64encode_known :
  Base64.urlsafe_b64encode "a?>~~" = "YT8-fn4="
  /\ Base64.urlsafe_b64encode "jdoe@example.edu" = "amRvZUBleGFtcGxlLmVkdQ=="
  /\ Base64.urlsafe_b64decode "YT8-fn4=" = Ok "a?>~~"
  /\ Base64.urlsafe_b64decode "YT8-fn4" = Raise (TypeError "Incorrect padding").
Proof. vm_compute. repeat split. Qed.

(** ["{:f}".format] on 1700000000.25, 0.1, 2.5e-6, 2^-7 (a tie, to even),
    3 * 2^-7 (a tie, to even), -0.5 and 1e23. *)
Example format_f_known :
  PyFloat.format_f (S754_finite false 6800000001 (-2)) = "1700000000.250000"
  /\ PyFloat.format_f (S754_finite false 3602879701896397 (-55)) = "0.100000"
  /\ PyFloat.format_f (S754_finite false 5902958103587057 (-71)) = "0.000003"
  /\ PyFloat.format_f (S754_finite false 1 (-7)) = "0.007812"
  /\ PyFloat.format_f (S754_finite false 3 (-7)) = "0.023438"
  /\ PyFloat.format_f (S754_finite true 1 (-1)) = "-0.500000"
  /\ PyFloat.format_f (S754_finite false 99999999999999991611392 0)
     = "99999999999999991611392.000000".
Proof. vm_compute. repeat split. Qed.

(** The example of the specification: the fixed tuple and its digest. *)
Example spec_example_digest :
  canonical "1700000000.000000" "deadbeef" "s3cr3t" "jdoe@example.edu"
    "Jane Doe" "staff"
  = "1700000000.000000 :: deadbeef :: s3cr3t :: jdoe@example.edu :: Jane Doe :: staff :: ISLE ROCKS!"
  /\ token_of "1700000000.000000" "deadbeef" "s3cr3t" "jdoe@example.edu"
       "Jane Doe" "staff"
     = "6d9194a91d877846804290157c458892a8ce6fdcd4f352f9105b1c5811e73e81".
Proof. vm_compute. split; reflexivity. Qed.

(** A whole run: the sample request, and the same request without its
    [eppn] header and without its secret file. *)
Example run_sample :
  stdout (run sample_world) =
  [Printed
     (location_line
        "https://isle.stat.cmu.edu/#/shibboleth?token=6d9194a91d877846804290157c458892a8ce6fdcd4f352f9105b1c5811e73e81&time=1700000000.000000&salt=deadbeef&eppn=amRvZUBleGFtcGxlLmVkdQ==&name=SmFuZSBEb2U=&affil=c3RhZmY=&url=YT0xJmI9Mg==")].
Proof. vm_compute. reflexivity. Qed.

Example run_sample_no_eppn :
  stdout (run sample_world_no_eppn) = [CgitbReport (KeyError "HTTP_EPPN")]
  /\ drawn (run sample_world_no_eppn) = 0%nat.
Proof. vm_compute. split; reflexivity. Qed.

Example run_sample_no_secret :
  stdout (run sample_world_no_secret) = [CgitbReport (IOError "./adata")].
Proof. vm_compute. reflexivity. Qed.

(** The diagnostic page asked for attributes that were never encoded:
    [jdoe@example.edu] is no base64, and the page stops after its heading. *)
Example diagnostic_output_unencoded :
  diagnostic_output "/" (<["token" := "00ff"]> sample_attrs) "/" tt sample_world
  = (Raise (TypeError "Incorrect padding"),
     after_lines sample_world
       [page_header; page_open;
        "<h1>SSO Attributes for request a=1&b=2 </h1>"]).
Proof. vm_compute. reflexivity. Qed.

End KnownValues.
